(** * A shallow embedding of ascn-aws-agent.py

    The script wires five "tool" functions (AWS CLI passthrough, Route 53
    hosted zones, EC2 instance size by private IP, IAM attached policies,
    S3 buckets) and a query harness that asks a language model and then
    dispatches on keywords of the query text.

    Modelling choices:
    - Python [str] values are Rocq [string]s read as sequences of Latin-1
      code points (one [ascii] per code point).
    - The loosely typed dictionaries returned by boto3 are [pyval]s; indexing
      and iteration follow CPython, including the [KeyError], [IndexError]
      and [TypeError] they raise and the text [str(e)] of those exceptions.
    - Exceptions are the instances of [Exception] (what [except Exception]
      catches); an exception is its class name and its [str(e)] text.
      [print] writes a line to standard output and does not fail.
    - The outside world (the AWS API behind every client handle, the
      subprocess runner, [os.environ], the language model) is a parameter:
      every theorem holds for every behaviour of it.
    - The module-level globals (the credential triple and the three service
      handles) and the output produced so far are an explicit state; the
      functions run in a state and exception monad [PyM]. *)

From stdpp Require Import base strings list gmap.
From Stdlib Require Import Ascii String.

Local Open Scope string_scope.
Local Open Scope nat_scope.

(** Let [simpl] compute string concatenation. *)
#[local] Arguments String.append : simpl nomatch.

(* ------------------------------------------------------------------ *)
(** ** Characters and strings *)

Definition code (c : ascii) : nat := nat_of_ascii c.

(** The double quote character (code point 34). *)
Definition dq : ascii := ascii_of_nat 34.
Definition sq : ascii := "'"%char.
Definition bslash : ascii := "\"%char.

Definition str1 (c : ascii) : string := String c EmptyString.

(** [str.isspace()] restricted to Latin-1: tab, LF, VT, FF, CR, the four
    information separators 0x1C-0x1F, space, NEL (0x85) and NBSP (0xA0). *)
Definition py_isspace (c : ascii) : bool :=
  let n := code c in
  ((9 <=? n) && (n <=? 13)) || ((28 <=? n) && (n <=? 32)) || (n =? 133) || (n =? 160).

(** [str.isprintable()] for one Latin-1 code point. *)
Definition py_isprintable (c : ascii) : bool :=
  let n := code c in
  (32 <=? n) && negb (n =? 127) && negb ((128 <=? n) && (n <=? 160)) && negb (n =? 173).

(** [str.lower()] on Latin-1: A-Z and the accented capitals 0xC0-0xDE
    except the multiplication sign 0xD7. *)
Definition py_lower_char (c : ascii) : ascii :=
  let n := code c in
  if ((65 <=? n) && (n <=? 90)) || ((192 <=? n) && (n <=? 222) && negb (n =? 215))
  then ascii_of_nat (n + 32) else c.

Fixpoint py_lower (s : string) : string :=
  match s with
  | EmptyString => EmptyString
  | String c s' => String (py_lower_char c) (py_lower s')
  end.

(** [needle in hay] for strings. *)
Fixpoint py_contains (needle hay : string) : bool :=
  String.prefix needle hay ||
  match hay with
  | EmptyString => false
  | String _ h => py_contains needle h
  end.

Fixpoint has_char (c : ascii) (s : string) : bool :=
  match s with
  | EmptyString => false
  | String d s' => Ascii.eqb c d || has_char c s'
  end.

Definition hexdig (n : nat) : ascii :=
  ascii_of_nat (if n <? 10 then 48 + n else 87 + n).

(** One character of [repr(s)] when [q] is the chosen quote
    (CPython's unicode_repr). *)
Definition repr_char (q c : ascii) : string :=
  let n := code c in
  if Ascii.eqb c q || Ascii.eqb c bslash then String bslash (str1 c)
  else if n =? 9 then "\t"
  else if n =? 10 then "\n"
  else if n =? 13 then "\r"
  else if (n <? 32) || (n =? 127) || negb (py_isprintable c) then
    String bslash (String "x" (String (hexdig (n / 16)) (str1 (hexdig (n mod 16)))))
  else str1 c.

Fixpoint repr_body (q : ascii) (s : string) : string :=
  match s with
  | EmptyString => EmptyString
  | String c s' => repr_char q c +:+ repr_body q s'
  end.

(** [repr(s)]: double quotes exactly when [s] has a single quote and no
    double quote. *)
Definition repr_str (s : string) : string :=
  let q := if has_char sq s && negb (has_char dq s) then dq else sq in
  String q (repr_body q s +:+ str1 q).

(** [repr(n)] for a non-negative int. *)
Fixpoint dec_go (fuel n : nat) (acc : string) : string :=
  match fuel with
  | O => acc
  | S f =>
      let acc' := String (ascii_of_nat (48 + n mod 10)) acc in
      if n <? 10 then acc' else dec_go f (n / 10) acc'
  end.

Definition py_int_repr (n : nat) : string := dec_go (S n) n EmptyString.

(** [", ".join(xs)] *)
Fixpoint join (sep : string) (xs : list string) : string :=
  match xs with
  | [] => EmptyString
  | [x] => x
  | x :: xs' => x +:+ sep +:+ join sep xs'
  end.

(* ------------------------------------------------------------------ *)
(** ** Python values, as boto3 returns them *)

#[local] Set Warnings "-register-all".
Inductive pyval : Type :=
| PNone
| PStr (s : string)
| PList (l : list pyval)
| PDict (d : list (string * pyval)).

(** [repr(v)] *)
Fixpoint py_repr (v : pyval) : string :=
  match v with
  | PNone => "None"
  | PStr s => repr_str s
  | PList l => "[" +:+ join ", " (map py_repr l) +:+ "]"
  | PDict d =>
      "{" +:+ join ", " (map (fun kv => repr_str (fst kv) +:+ ": " +:+ py_repr (snd kv)) d)
      +:+ "}"
  end.

(** [f"{v}"], i.e. [format(v)]: the string itself for a [str], [repr]
    otherwise. *)
Definition py_str (v : pyval) : string :=
  match v with
  | PStr s => s
  | _ => py_repr v
  end.

(** Truth value, as tested by [if v:]. *)
Definition truthy (v : pyval) : bool :=
  match v with
  | PNone => false
  | PStr s => negb (String.eqb s EmptyString)
  | PList l => negb (Nat.eqb (List.length l) 0)
  | PDict d => negb (Nat.eqb (List.length d) 0)
  end.

(** An exception: its class and its text [str(e)]. *)
Record exn := PyExc { exc_class : string; exc_text : string }.

Definition str_exn (e : exn) : string := exc_text e.

Inductive key := KStr (s : string) | KInt (i : nat).

Fixpoint dict_get (d : list (string * pyval)) (k : string) : option pyval :=
  match d with
  | [] => None
  | (k', v) :: d' => if String.eqb k k' then Some v else dict_get d' k
  end.

(** [v[k]] *)
Definition getitem (v : pyval) (k : key) : exn + pyval :=
  match v, k with
  | PDict d, KStr s =>
      match dict_get d s with
      | Some x => inr x
      | None => inl (PyExc "KeyError" (repr_str s))
      end
  | PDict _, KInt i => inl (PyExc "KeyError" (py_int_repr i))
  | PList l, KInt i =>
      match nth_error l i with
      | Some x => inr x
      | None => inl (PyExc "IndexError" "list index out of range")
      end
  | PList _, KStr _ =>
      inl (PyExc "TypeError" "list indices must be integers or slices, not str")
  | PStr s, KInt i =>
      match String.get i s with
      | Some c => inr (PStr (str1 c))
      | None => inl (PyExc "IndexError" "string index out of range")
      end
  | PStr _, KStr _ => inl (PyExc "TypeError" "string indices must be integers, not 'str'")
  | PNone, _ => inl (PyExc "TypeError" "'NoneType' object is not subscriptable")
  end.

(** [iter(v)]: elements of a list, keys of a dict, characters of a str. *)
Definition py_iter (v : pyval) : exn + list pyval :=
  match v with
  | PList l => inr l
  | PDict d => inr (map (fun kv => PStr (fst kv)) d)
  | PStr s => inr (map (fun c => PStr (str1 c)) (list_ascii_of_string s))
  | PNone => inl (PyExc "TypeError" "'NoneType' object is not iterable")
  end.

(** [[f(x) for x in xs]] where [f] may raise: the first exception wins. *)
Fixpoint comprehension (f : pyval -> exn + pyval) (xs : list pyval) : exn + list pyval :=
  match xs with
  | [] => inr []
  | x :: xs' =>
      match f x with
      | inl e => inl e
      | inr y =>
          match comprehension f xs' with
          | inl e => inl e
          | inr ys => inr (y :: ys)
          end
      end
  end.

Definition ebind {A B} (m : exn + A) (k : A -> exn + B) : exn + B :=
  match m with inl e => inl e | inr a => k a end.

(* ------------------------------------------------------------------ *)
(** ** Module state and the [PyM] monad *)

(** The credential triple read by [os.getenv] at import time; [None] when
    the variable is unset. *)
Record creds := Creds {
  cred_access : option string;   (* AWS_ACCESS_KEY *)
  cred_secret : option string;   (* AWS_SECRET_KEY *)
  cred_region : option string    (* REGION_NAME *)
}.

(** A boto3 client object: the service it is bound to, the credentials it
    was built with, and its object identity. *)
Record handle := Handle { h_service : string; h_creds : creds; h_id : nat }.

(** What [subprocess.run(..., capture_output=True, text=True)] returns. *)
Record completed := Completed { returncode : Z; stdout : string; stderr : string }.

(** The calls the langchain harness makes through [X.invoke(args)]. *)
Inductive tool_call :=
| CallS3
| CallRoute53
| CallEC2 (instance_ip : string)
| CallIAM (user_name : string).

(** Observable effects, in the order they happen. *)
Inductive event :=
| EvClient (h : handle)                                   (* boto3.client(...) *)
| EvApi (h : handle) (op : string) (kwargs : list (string * pyval))
| EvSpawn (argv : list string) (env : gmap string (option string))
| EvLLM (input : string)                                  (* chain.invoke *)
| EvInvoke (t : tool_call)                                (* tool.invoke *)
| EvPrint (line : string).                                (* print(...) *)

Record state := State {
  st_creds : creds;          (* aws_access_key_id, aws_secret_access_key, region_name *)
  st_ec2 : handle;           (* module-level [ec2] *)
  st_route53 : handle;       (* module-level [route53] *)
  st_iam : handle;           (* module-level [iam] *)
  st_next_id : nat;          (* identity of the next object allocated *)
  st_log : list event
}.

Definition PyM (A : Type) : Type := state -> state * (exn + A).

Definition py_ret {A} (a : A) : PyM A := fun s => (s, inr a).

Definition py_bind {A B} (m : PyM A) (k : A -> PyM B) : PyM B :=
  fun s => match m s with
           | (s', inl e) => (s', inl e)
           | (s', inr a) => k a s'
           end.

Definition py_raise {A} (e : exn) : PyM A := fun s => (s, inl e).

Definition py_lift {A} (r : exn + A) : PyM A := fun s => (s, r).

Definition py_get : PyM state := fun s => (s, inr s).

(** [try: body except Exception as e: handler(e)]; effects of [body] up to
    the raise are kept. *)
Definition py_try {A} (body : PyM A) (handler : exn -> PyM A) : PyM A :=
  fun s => match body s with
           | (s', inl e) => handler e s'
           | (s', inr a) => (s', inr a)
           end.

Definition emit (ev : event) : PyM unit :=
  fun s => (State (st_creds s) (st_ec2 s) (st_route53 s) (st_iam s) (st_next_id s)
                  (st_log s ++ [ev]), inr tt).

Definition py_print (line : string) : PyM unit := emit (EvPrint line).

Notation "x <- c1 ;; c2" := (py_bind c1 (fun x => c2))
  (at level 100, c1 at next level, right associativity).
Notation "c1 ;;; c2" := (py_bind c1 (fun _ => c2))
  (at level 100, right associativity).

(** [boto3.client(service, aws_access_key_id=..., ...)]: a new object. *)
Definition boto3_client (service : string) : PyM handle :=
  fun s =>
    let h := Handle service (st_creds s) (st_next_id s) in
    (State (st_creds s) (st_ec2 s) (st_route53 s) (st_iam s) (S (st_next_id s))
           (st_log s ++ [EvClient h]), inr h).

(** [boto3.client(service, ...)] at import time, which may raise:
    [client_error service c] is the exception botocore raises when asked
    for a client of [service] with the credentials [c]
    (PartialCredentialsError when exactly one of the two keys is given,
    NoRegionError when no region is given or configured, ...), [None] when
    it builds the client. *)
Definition boto3_client_checked (client_error : string -> creds -> option exn)
  (service : string) : PyM handle :=
  fun s => match client_error service (st_creds s) with
           | Some e => (s, inl e)
           | None => boto3_client service s
           end.

(** Import time (lines 14-24): with the credentials read, build the three
    clients in order; the first one that raises ends the import. *)
Definition module_init (client_error : string -> creds -> option exn) (c : creds)
  : exn + state :=
  let s0 := State c (Handle "" c 0) (Handle "" c 0) (Handle "" c 0) 0 [] in
  match (ec2 <- boto3_client_checked client_error "ec2" ;;
         r53 <- boto3_client_checked client_error "route53" ;;
         iam <- boto3_client_checked client_error "iam" ;; py_ret (ec2, r53, iam)) s0 with
  | (s, inr (ec2, r53, iam)) => inr (State c ec2 r53 iam (st_next_id s) (st_log s))
  | (_, inl e) => inl e
  end.

(** The module state after an import that built its three clients. *)
Definition post_import_state (c : creds) : state :=
  State c (Handle "ec2" c 0) (Handle "route53" c 1) (Handle "iam" c 2) 3
        [EvClient (Handle "ec2" c 0); EvClient (Handle "route53" c 1);
         EvClient (Handle "iam" c 2)].

(** [os.environ.copy()] with the three credential variables overridden
    (lines 32-35). *)
Definition cli_env (environ : gmap string string) (c : creds) : gmap string (option string) :=
  <["AWS_DEFAULT_REGION" := cred_region c]>
    (<["AWS_SECRET_ACCESS_KEY" := cred_secret c]>
      (<["AWS_ACCESS_KEY_ID" := cred_access c]> (Some <$> environ))).

(** [command.split()]: maximal runs of non-whitespace characters; [cur]
    is the word being read. *)
Fixpoint split_go (s : string) (cur : string) : list string :=
  match s with
  | EmptyString => if String.eqb cur EmptyString then [] else [cur]
  | String c s' =>
      if py_isspace c then
        (if String.eqb cur EmptyString then split_go s' EmptyString
         else cur :: split_go s' EmptyString)
      else split_go s' (cur +:+ str1 c)
  end.

Definition py_split (s : string) : list string := split_go s EmptyString.

(** Cutting at every single whitespace character, keeping the empty
    pieces between adjacent separators (what a split on each separator
    would give, before runs are collapsed). *)
Fixpoint split_each_go (s : string) (cur : string) : list string :=
  match s with
  | EmptyString => [cur]
  | String c s' =>
      if py_isspace c then cur :: split_each_go s' EmptyString
      else split_each_go s' (cur +:+ str1 c)
  end.

Definition split_each (s : string) : list string := split_each_go s EmptyString.

(** Every character of [s] satisfies [p]. *)
Fixpoint all_chars (p : ascii -> bool) (s : string) : bool :=
  match s with
  | EmptyString => true
  | String c s' => p c && all_chars p s'
  end.

(* ------------------------------------------------------------------ *)
(** ** The five tools (lines 26-91) *)

Section Tools.

(** The AWS API: the outcome of [h.op(...)] with keyword arguments [kwargs], a response or an
    exception (ClientError, connection errors, ...). *)
Variable api : handle -> string -> list (string * pyval) -> exn + pyval.
(** [subprocess.run(argv, capture_output=True, text=True, env=env)];
    an exception when the binary cannot be spawned. *)
Variable subprocess_run : list string -> gmap string (option string) -> exn + completed.
(** [os.environ] at call time. *)
Variable environ : gmap string string.

Definition api_call (h : handle) (op : string) (kwargs : list (string * pyval)) : PyM pyval :=
  emit (EvApi h op kwargs) ;;; py_lift (api h op kwargs).

Definition spawn (argv : list string) (env : gmap string (option string)) : PyM completed :=
  emit (EvSpawn argv env) ;;; py_lift (subprocess_run argv env).

(** [aws_cli_command(command)]; [import subprocess] (outside the [try])
    cannot fail for the standard library and is not modelled. *)
Definition aws_cli_command (command : string) : PyM string :=
  py_try
    (s <- py_get ;;
     let env := cli_env environ (st_creds s) in
     result <- spawn ("aws" :: py_split command) env ;;
     if Z.eqb (returncode result) 0 then py_ret (stdout result)
     else py_ret ("Error: " +:+ stderr result))
    (fun e => py_ret ("Error executing AWS command: " +:+ str_exn e)).

Definition list_route53_hosted_zones : PyM string :=
  py_try
    (s <- py_get ;;
     response <- api_call (st_route53 s) "list_hosted_zones" [] ;;
     hosted_zones <- py_lift (ebind (getitem response (KStr "HostedZones")) (fun zs =>
                              ebind (py_iter zs) (fun zs =>
                              comprehension (fun zone => getitem zone (KStr "Name")) zs))) ;;
     py_ret ("Route 53 Hosted Zones: " +:+ py_repr (PList hosted_zones)))
    (fun e => py_ret ("Error listing Route 53 hosted zones: " +:+ str_exn e)).

Definition ec2_filters (instance_ip : string) : list (string * pyval) :=
  [("Filters", PList [PDict [("Name", PStr "private-ip-address");
                             ("Values", PList [PStr instance_ip])]])].

Definition get_ec2_instance_size (instance_ip : string) : PyM string :=
  py_try
    (s <- py_get ;;
     instances <- api_call (st_ec2 s) "describe_instances" (ec2_filters instance_ip) ;;
     reservations <- py_lift (getitem instances (KStr "Reservations")) ;;
     if truthy reservations then
       instance_type <- py_lift (
         ebind (getitem instances (KStr "Reservations")) (fun rs =>
         ebind (getitem rs (KInt 0)) (fun r =>
         ebind (getitem r (KStr "Instances")) (fun is =>
         ebind (getitem is (KInt 0)) (fun i =>
         getitem i (KStr "InstanceType")))))) ;;
       py_ret ("EC2 instance " +:+ instance_ip +:+ " is of type: " +:+ py_str instance_type)
     else py_ret ("No EC2 instance found with IP address: " +:+ instance_ip))
    (fun e => py_ret ("Error getting EC2 instance size: " +:+ str_exn e)).

Definition get_user_permissions (user_name : string) : PyM string :=
  py_try
    (s <- py_get ;;
     policies <- api_call (st_iam s) "list_attached_user_policies"
                   [("UserName", PStr user_name)] ;;
     policy_names <- py_lift (ebind (getitem policies (KStr "AttachedPolicies")) (fun ps =>
                              ebind (py_iter ps) (fun ps =>
                              comprehension (fun p => getitem p (KStr "PolicyName")) ps))) ;;
     py_ret ("IAM user '" +:+ user_name +:+ "' has these policies: "
             +:+ py_repr (PList policy_names)))
    (fun e => py_ret ("Error getting user permissions: " +:+ str_exn e)).

Definition list_s3_buckets : PyM string :=
  py_try
    (s3 <- boto3_client "s3" ;;
     response <- api_call s3 "list_buckets" [] ;;
     bucket_names <- py_lift (ebind (getitem response (KStr "Buckets")) (fun bs =>
                              ebind (py_iter bs) (fun bs =>
                              comprehension (fun b => getitem b (KStr "Name")) bs))) ;;
     py_ret ("S3 Buckets: " +:+ py_repr (PList bucket_names)))
    (fun e => py_ret ("Error listing S3 buckets: " +:+ str_exn e)).

End Tools.

(* ------------------------------------------------------------------ *)
(** ** The query harness (lines 119-162) *)

Definition nl : string := str1 (ascii_of_nat 10).

(** ['=' * 50] *)
Definition rule50 : string :=
  "==================================================".

Definition test_queries : list string :=
  ["List all S3 buckets in my AWS account";
   "List all Route 53 hosted zones";
   "Get the size of EC2 instance with IP 10.0.1.112";
   "Get permissions for IAM user take-home-coding"].

Section Harness.

Variable api : handle -> string -> list (string * pyval) -> exn + pyval.
(** [chain.invoke({"input": query}).content]: the prompt template filled
    with the query and sent to the model; a reply or an exception. *)
Variable llm : string -> exn + string.

(** [tool.invoke(args)] *)
Definition run_tool (t : tool_call) : PyM string :=
  emit (EvInvoke t) ;;;
  match t with
  | CallS3 => list_s3_buckets api
  | CallRoute53 => list_route53_hosted_zones api
  | CallEC2 ip => get_ec2_instance_size api ip
  | CallIAM u => get_user_permissions api u
  end.

(** The body of the [try] of one loop iteration (lines 130-155). *)
Definition agent_iteration (query : string) : PyM unit :=
  py_print (nl +:+ rule50) ;;;
  py_print ("Query: " +:+ query) ;;;
  py_print rule50 ;;;
  content <- (emit (EvLLM query) ;;; py_lift (llm query)) ;;
  py_print "Agent response:" ;;;
  py_print content ;;;
  if py_contains "s3" (py_lower query) && py_contains "bucket" (py_lower query) then
    py_print (nl +:+ "Executing S3 bucket listing...") ;;;
    aws_result <- run_tool CallS3 ;;
    py_print ("Result: " +:+ aws_result)
  else if py_contains "route 53" (py_lower query) || py_contains "hosted zone" (py_lower query) then
    py_print (nl +:+ "Executing Route 53 hosted zones listing...") ;;;
    aws_result <- run_tool CallRoute53 ;;
    py_print ("Result: " +:+ aws_result)
  else if py_contains "ec2" (py_lower query) && py_contains "10.0.1.112" query then
    py_print (nl +:+ "Getting EC2 instance size...") ;;;
    aws_result <- run_tool (CallEC2 "10.0.1.112") ;;
    py_print ("Result: " +:+ aws_result)
  else if py_contains "iam" (py_lower query) && py_contains "take-home-coding" (py_lower query) then
    py_print (nl +:+ "Getting IAM user permissions...") ;;;
    aws_result <- run_tool (CallIAM "take-home-coding") ;;
    py_print ("Result: " +:+ aws_result)
  else py_ret tt.

(** [for query in queries: try: ... except Exception as e: print(...)] *)
Fixpoint agent_loop (queries : list string) : PyM unit :=
  match queries with
  | [] => py_ret tt
  | query :: rest =>
      py_try (agent_iteration query) (fun e => py_print ("Error: " +:+ str_exn e)) ;;;
      agent_loop rest
  end.

Definition test_aws_agent : PyM unit := agent_loop test_queries.

End Harness.

(** The rule table of the harness as a pure function of the query text:
    the tool its first matching rule selects. *)
Definition dispatch (query : string) : option tool_call :=
  let q := py_lower query in
  if py_contains "s3" q && py_contains "bucket" q then Some CallS3
  else if py_contains "route 53" q || py_contains "hosted zone" q then Some CallRoute53
  else if py_contains "ec2" q && py_contains "10.0.1.112" query then Some (CallEC2 "10.0.1.112")
  else if py_contains "iam" q && py_contains "take-home-coding" q then Some (CallIAM "take-home-coding")
  else None.

(** The tools the harness invoked, read off a log. *)
Fixpoint invoked (log : list event) : list tool_call :=
  match log with
  | [] => []
  | EvInvoke t :: l => t :: invoked l
  | _ :: l => invoked l
  end.

(** The lines printed, read off a log. *)
Fixpoint printed (log : list event) : list string :=
  match log with
  | [] => []
  | EvPrint s :: l => s :: printed l
  | _ :: l => printed l
  end.

(** The log entries produced by running [m] from [s]. *)
Definition new_events {A} (m : PyM A) (s : state) : list event :=
  drop (List.length (st_log s)) (st_log (fst (m s))).

(** The effects a tool may have on the outside world. *)
Definition tool_event (ev : event) : Prop :=
  match ev with
  | EvClient _ | EvApi _ _ _ | EvSpawn _ _ => True
  | _ => False
  end.

(** The module-level globals are the same in [s'] as in [s]. *)
Definition globals_kept (s s' : state) : Prop :=
  st_creds s' = st_creds s /\ st_ec2 s' = st_ec2 s /\
  st_route53 s' = st_route53 s /\ st_iam s' = st_iam s.

Definition not_client (ev : event) : Prop :=
  match ev with EvClient _ => False | _ => True end.

(** A run that keeps the globals, allocates nothing and builds no client. *)
Definition builds_no_client (m : PyM string) : Prop :=
  forall s, globals_kept s (fst (m s)) /\ st_next_id (fst (m s)) = st_next_id s /\
    exists l, st_log (fst (m s)) = (st_log s ++ l)%list /\ Forall not_client l.

(** Every object built so far has an identity below [st_next_id]. *)
Definition wf_state (s : state) : Prop :=
  h_id (st_ec2 s) < st_next_id s /\ h_id (st_route53 s) < st_next_id s /\
  h_id (st_iam s) < st_next_id s /\
  Forall (fun ev => match ev with EvClient h => h_id h < st_next_id s | _ => True end)
         (st_log s).

(** [repr(s)] is [s] between quotes, with nothing escaped: every
    character printable and not a backslash, and not both quote kinds. *)
Definition repr_verbatim (s : string) : bool :=
  all_chars (fun c => py_isprintable c && negb (Ascii.eqb c bslash)) s &&
  negb (has_char sq s && has_char dq s).

(** The names occur in the text, one after the other, without overlap. *)
Inductive occurs_in_order : list string -> string -> Prop :=
| oio_nil (text : string) : occurs_in_order [] text
| oio_cons (before name after : string) (names : list string) :
    occurs_in_order names after ->
    occurs_in_order (name :: names) (before +:+ name +:+ after).

(** A tool run: it ends with a string, and it only appends tool effects to
    the log. *)
Definition tool_run_spec (m : PyM string) : Prop :=
  forall s, exists s' r l,
    m s = (s', inr r) /\ st_log s' = (st_log s ++ l)%list /\ Forall tool_event l.

(** The value or exception a run ends with. *)
Definition outcome {A} (p : state * (exn + A)) : exn + A := snd p.

(** A run that ends with a value, not an exception. *)
Definition returns {A} (p : state * (exn + A)) : Prop := exists v, outcome p = inr v.

(* ------------------------------------------------------------------ *)
(** ** Concrete fixtures: an account, its responses, a model *)

Definition demo_creds : creds :=
  Creds (Some "AKIAEXAMPLE") (Some "wJalrEXAMPLEKEY") (Some "us-east-1").

(** The state right after import. *)
Definition demo_state : state := post_import_state demo_creds.

(** The private IP a [describe_instances] call filters on. *)
Definition filter_ip (kwargs : list (string * pyval)) : string :=
  match kwargs with
  | [("Filters", PList [PDict [_; ("Values", PList [PStr ip])]])] => ip
  | _ => EmptyString
  end.

(** An account with two hosted zones, two attached policies for every
    user, two buckets, one t3.micro at 10.0.1.112, nothing at 10.0.9.9 and
    a reservation without instances at 10.0.0.0. *)
Definition demo_api (h : handle) (op : string) (kwargs : list (string * pyval)) : exn + pyval :=
  if String.eqb op "list_hosted_zones" then
    inr (PDict [("HostedZones",
                 PList [PDict [("Id", PStr "/hostedzone/Z1"); ("Name", PStr "example.com.")];
                        PDict [("Id", PStr "/hostedzone/Z2"); ("Name", PStr "internal.example.com.")]])])
  else if String.eqb op "list_attached_user_policies" then
    inr (PDict [("AttachedPolicies",
                 PList [PDict [("PolicyName", PStr "ReadOnlyAccess")];
                        PDict [("PolicyName", PStr "IAMUserChangePassword")]])])
  else if String.eqb op "list_buckets" then
    inr (PDict [("Buckets", PList [PDict [("Name", PStr "assets-prod")];
                                   PDict [("Name", PStr "logs-archive")]])])
  else if String.eqb op "describe_instances" then
    let ip := filter_ip kwargs in
    if String.eqb ip "10.0.1.112" then
      inr (PDict [("Reservations",
                   PList [PDict [("Instances", PList [PDict [("InstanceType", PStr "t3.micro")]])]])])
    else if String.eqb ip "10.0.0.0" then
      inr (PDict [("Reservations", PList [PDict [("Instances", PList [])]])])
    else inr (PDict [("Reservations", PList [])])
  else inl (PyExc "ClientError" "An error occurred (InvalidAction)").

Definition access_denied : exn :=
  PyExc "ClientError" "An error occurred (AccessDenied) when calling the operation".

(** An account that refuses every call. *)
Definition denied_api (h : handle) (op : string) (kwargs : list (string * pyval)) : exn + pyval :=
  inl access_denied.

Definition no_binary : exn :=
  PyExc "FileNotFoundError" "[Errno 2] No such file or directory: 'aws'".

(** A machine without the aws binary. *)
Definition missing_aws_run (argv : list string) (env : gmap string (option string))
  : exn + completed := inl no_binary.

(** A CLI that succeeds. *)
Definition ok_run (argv : list string) (env : gmap string (option string)) : exn + completed :=
  inr (Completed 0 "REGIONS us-east-1" "").

(** A CLI that fails. *)
Definition failing_run (argv : list string) (env : gmap string (option string))
  : exn + completed :=
  inr (Completed 252 "" "aws: error: argument operation: Invalid choice").

Definition rate_limited : exn := PyExc "RateLimitError" "Rate limit reached".

(** A model that answers every query but the Route 53 one. *)
Definition demo_llm (query : string) : exn + string :=
  if String.eqb query "List all Route 53 hosted zones" then inl rate_limited
  else inr "I can help with that.".

(* ------------------------------------------------------------------ *)
(** ** Import time and the entry point (lines 10-24, 160-162) *)

(** [load_dotenv()]: the variables of the .env file, as python-dotenv
    parses them ([dotenv]; empty when no file is found), are added to
    [os.environ]; a variable already set in the process environment keeps
    its value ([override=False]). *)
Definition load_dotenv (dotenv environ : gmap string string) : gmap string string :=
  environ ∪ dotenv.

(** Lines 14-16: the three [os.getenv(...)] reads, [None] when unset. *)
Definition read_creds (environ : gmap string string) : creds :=
  Creds (environ !! "AWS_ACCESS_KEY") (environ !! "AWS_SECRET_KEY") (environ !! "REGION_NAME").

(** Importing the module (lines 10-24 and 94-117): [os.environ] after
    [load_dotenv()], the credentials, the three clients, then the chat
    model; the import ends with the first exception raised. Given
    [os.environ], [client_error env] is what [boto3.client] raises for a
    service and the credentials (botocore also reads AWS_DEFAULT_REGION
    and its configuration files), and [chat_error env key] what
    [ChatOpenAI(model="gpt-4o-mini", temperature=0, api_key=key)] raises.
    The prompt template and the chain are built without error. *)
Definition import_module
  (client_error : gmap string string -> string -> creds -> option exn)
  (chat_error : gmap string string -> option string -> option exn)
  (dotenv environ : gmap string string) : exn + (gmap string string * state) :=
  let env := load_dotenv dotenv environ in
  match module_init (client_error env) (read_creds env) with
  | inl e => inl e
  | inr s =>
      match chat_error env (env !! "OPENAI_API_KEY") with
      | Some e => inl e
      | None => inr (env, s)
      end
  end.

Section Script.

Variable api : handle -> string -> list (string * pyval) -> exn + pyval.
Variable llm : string -> exn + string.

(** [if __name__ == "__main__":] (lines 160-162) *)
Definition main : PyM unit :=
  py_print "Testing Enhanced AWS Agent..." ;;;
  test_aws_agent api llm.

(** The function a harness branch calls through [tool.invoke(args)]. *)
Definition tool_fn (t : tool_call) : PyM string :=
  match t with
  | CallS3 => list_s3_buckets api
  | CallRoute53 => list_route53_hosted_zones api
  | CallEC2 ip => get_ec2_instance_size api ip
  | CallIAM u => get_user_permissions api u
  end.

End Script.

(** The line a harness branch prints before invoking its tool. *)
Definition announce (t : tool_call) : string :=
  match t with
  | CallS3 => nl +:+ "Executing S3 bucket listing..."
  | CallRoute53 => nl +:+ "Executing Route 53 hosted zones listing..."
  | CallEC2 _ => nl +:+ "Getting EC2 instance size..."
  | CallIAM _ => nl +:+ "Getting IAM user permissions..."
  end.

(** The AWS requests of a tool run from [s]: the client the S3 tool builds
    and the one API request of each tool. *)
Definition tool_requests (t : tool_call) (s : state) : list event :=
  match t with
  | CallS3 =>
      [EvClient (Handle "s3" (st_creds s) (st_next_id s));
       EvApi (Handle "s3" (st_creds s) (st_next_id s)) "list_buckets" []]
  | CallRoute53 => [EvApi (st_route53 s) "list_hosted_zones" []]
  | CallEC2 ip => [EvApi (st_ec2 s) "describe_instances" (ec2_filters ip)]
  | CallIAM u => [EvApi (st_iam s) "list_attached_user_policies" [("UserName", PStr u)]]
  end.

(** Objects a tool allocates. *)
Definition allocs (t : tool_call) : nat :=
  match t with CallS3 => 1 | _ => 0 end.

Definition is_s3 (t : tool_call) : bool :=
  match t with CallS3 => true | _ => false end.

(** [s] with its log replaced by [l]. *)
Definition set_log (s : state) (l : list event) : state :=
  State (st_creds s) (st_ec2 s) (st_route53 s) (st_iam s) (st_next_id s) l.

(** The inputs sent to the model, read off a log. *)
Fixpoint llm_inputs (log : list event) : list string :=
  match log with
  | [] => []
  | EvLLM q :: l => q :: llm_inputs l
  | _ :: l => llm_inputs l
  end.

(** The argument vectors of the processes spawned, read off a log. *)
Fixpoint spawns (log : list event) : list (list string) :=
  match log with
  | [] => []
  | EvSpawn argv _ :: l => argv :: spawns l
  | _ :: l => spawns l
  end.

(** The clients built, read off a log. *)
Fixpoint clients (log : list event) : list handle :=
  match log with
  | [] => []
  | EvClient h :: l => h :: clients l
  | _ :: l => clients l
  end.

(** The tools the rule table selects for the queries the model answers,
    in query order. *)
Definition selected_tools (llm : string -> exn + string) (queries : list string)
  : list tool_call :=
  flat_map (fun q => match llm q with
                     | inl _ => []
                     | inr _ => match dispatch q with Some t => [t] | None => [] end
                     end) queries.

(** The value a variable has after [load_dotenv()]: the process
    environment's when set there, the .env file's otherwise. *)
Definition first_set (a b : option string) : option string :=
  match a with Some v => Some v | None => b end.

(** The text of the [TypeError] CPython's [subprocess.run] raises when a
    value of [env] is [None] ([os.fsencode(None)]), before spawning. *)
Definition none_value_error : exn :=
  PyExc "TypeError" "expected str, bytes or os.PathLike object, not NoneType".

(** A subprocess runner that refuses an environment with a [None] value,
    as CPython's does. *)
Definition rejects_none (run : list string -> gmap string (option string) -> exn + completed)
  : Prop :=
  forall argv env k, env !! k = Some None -> run argv env = inl none_value_error.

(** A runner that refuses [None] values and otherwise succeeds. *)
Definition strict_run (argv : list string) (env : gmap string (option string))
  : exn + completed :=
  if bool_decide (map_Forall (fun _ v => is_Some v) env)
  then inr (Completed 0 "REGIONS us-east-1" "") else inl none_value_error.

(** A .env file and a process environment without REGION_NAME; the
    region botocore uses comes from AWS_DEFAULT_REGION. *)
Definition demo_dotenv : gmap string string :=
  <["AWS_ACCESS_KEY" := "AKIADOTENV"]> (<["AWS_SECRET_KEY" := "dotenv-secret"]> ∅).
Definition demo_environ : gmap string string :=
  <["AWS_ACCESS_KEY" := "AKIASHELL"]>
    (<["AWS_DEFAULT_REGION" := "us-west-2"]>
      (<["OPENAI_API_KEY" := "sk-demo"]> (<["HOME" := "/root"]> ∅))).

(** A botocore without configuration files: PartialCredentialsError when
    exactly one of the two keys is given, NoRegionError when neither
    [region_name] nor AWS_DEFAULT_REGION names a region. *)
Definition demo_client_error (env : gmap string string) (service : string) (c : creds)
  : option exn :=
  match cred_access c, cred_secret c with
  | Some _, None =>
      Some (PyExc "PartialCredentialsError"
                  "Partial credentials found in explicit, missing: aws_secret_access_key")
  | None, Some _ =>
      Some (PyExc "PartialCredentialsError"
                  "Partial credentials found in explicit, missing: aws_access_key_id")
  | _, _ =>
      match first_set (cred_region c) (env !! "AWS_DEFAULT_REGION") with
      | None => Some (PyExc "NoRegionError" "You must specify a region.")
      | Some _ => None
      end
  end.

(** A chat model that needs an API key, given or from OPENAI_API_KEY. *)
Definition demo_chat_error (env : gmap string string) (key : option string) : option exn :=
  match first_set key (env !! "OPENAI_API_KEY") with
  | None => Some (PyExc "OpenAIError" "The api_key client option must be set")
  | Some _ => None
  end.

(** The characters of an IP address: digits 0-2 and the dot. *)
Definition ip_char (c : ascii) : bool :=
  Ascii.eqb c "0" || Ascii.eqb c "1" || Ascii.eqb c "2" || Ascii.eqb c ".".

(** Route 53 hosted zones "ex!ample.com." (which Route 53 names with an
    escape, "ex\041ample.com.") and "example.com.". *)
Definition escaped_zone_api (h : handle) (op : string) (kwargs : list (string * pyval))
  : exn + pyval :=
  inr (PDict [("HostedZones",
               PList [PDict [("Id", PStr "/hostedzone/Z1"); ("Name", PStr "ex\041ample.com.")];
                      PDict [("Id", PStr "/hostedzone/Z2"); ("Name", PStr "example.com.")]])]).

(** An account whose every response is an empty dict. *)
Definition keyless_api (h : handle) (op : string) (kwargs : list (string * pyval))
  : exn + pyval :=
  inr (PDict []).

(** An account with no hosted zone, no attached policy and no bucket. *)
Definition empty_account_api (h : handle) (op : string) (kwargs : list (string * pyval))
  : exn + pyval :=
  if String.eqb op "list_hosted_zones" then inr (PDict [("HostedZones", PList [])])
  else if String.eqb op "list_attached_user_policies" then
    inr (PDict [("AttachedPolicies", PList [])])
  else if String.eqb op "list_buckets" then inr (PDict [("Buckets", PList [])])
  else inr (PDict [("Reservations", PList [])]).

(** Responses whose entries lack a field: the second zone and the second
    bucket have no Name, the policy no PolicyName; the reservation at
    10.0.0.1 has no Instances, the instance elsewhere no InstanceType. *)
Definition partial_api (h : handle) (op : string) (kwargs : list (string * pyval))
  : exn + pyval :=
  if String.eqb op "list_hosted_zones" then
    inr (PDict [("HostedZones", PList [PDict [("Name", PStr "example.com.")];
                                       PDict [("Id", PStr "/hostedzone/Z2")]])])
  else if String.eqb op "list_attached_user_policies" then
    inr (PDict [("AttachedPolicies",
                 PList [PDict [("PolicyArn", PStr "arn:aws:iam::aws:policy/ReadOnlyAccess")]])])
  else if String.eqb op "list_buckets" then
    inr (PDict [("Buckets", PList [PDict [("Name", PStr "assets-prod")];
                                   PDict [("CreationDate", PStr "2024-01-01")]])])
  else if String.eqb (filter_ip kwargs) "10.0.0.1" then
    inr (PDict [("Reservations", PList [PDict [("ReservationId", PStr "r-1")]])])
  else inr (PDict [("Reservations",
                    PList [PDict [("Instances", PList [PDict [("InstanceId", PStr "i-1")]])]])]).

(* ------------------------------------------------------------------ *)
(** ** General lemmas *)

Lemma py_try_handler_returns {A} (body : PyM A) (h : exn -> A) (s : state) :
  returns (py_try body (fun e => py_ret (h e)) s).
Proof.
  unfold py_try, returns, outcome, py_ret.
  destruct (body s) as [s' [e|v]]; simpl; eauto.
Qed.

Ltac run_pym :=
  repeat (unfold py_try, py_bind, py_ret, py_get, py_lift, py_raise, emit, py_print,
            boto3_client, api_call, spawn in *; simpl in * ).

(* ------------------------------------------------------------------ *)
(** ** C1: every tool absorbs its errors *)

(** C1. Each of the five tools, whatever the AWS API or the subprocess
    runner does, ends with a string and never with an exception; when the
    underlying provider call raises [e], the string is the tool's
    "Error ...: " prefix followed by [str(e)]. *)
Theorem tools_absorb_provider_errors
  (api : handle -> string -> list (string * pyval) -> exn + pyval)
  (subprocess_run : list string -> gmap string (option string) -> exn + completed)
  (environ : gmap string string) (s : state) (command instance_ip user_name : string)
  (e : exn) :
  returns (aws_cli_command subprocess_run environ command s) /\
  returns (list_route53_hosted_zones api s) /\
  returns (get_ec2_instance_size api instance_ip s) /\
  returns (get_user_permissions api user_name s) /\
  returns (list_s3_buckets api s) /\
  (subprocess_run ("aws" :: py_split command) (cli_env environ (st_creds s)) = inl e ->
   outcome (aws_cli_command subprocess_run environ command s)
   = inr ("Error executing AWS command: " +:+ str_exn e)) /\
  (api (st_route53 s) "list_hosted_zones" [] = inl e ->
   outcome (list_route53_hosted_zones api s)
   = inr ("Error listing Route 53 hosted zones: " +:+ str_exn e)) /\
  (api (st_ec2 s) "describe_instances" (ec2_filters instance_ip) = inl e ->
   outcome (get_ec2_instance_size api instance_ip s)
   = inr ("Error getting EC2 instance size: " +:+ str_exn e)) /\
  (api (st_iam s) "list_attached_user_policies" [("UserName", PStr user_name)] = inl e ->
   outcome (get_user_permissions api user_name s)
   = inr ("Error getting user permissions: " +:+ str_exn e)) /\
  (api (Handle "s3" (st_creds s) (st_next_id s)) "list_buckets" [] = inl e ->
   outcome (list_s3_buckets api s)
   = inr ("Error listing S3 buckets: " +:+ str_exn e)).
Proof.
  split; [apply py_try_handler_returns|].
  split; [apply py_try_handler_returns|].
  split; [apply py_try_handler_returns|].
  split; [apply py_try_handler_returns|].
  split; [apply py_try_handler_returns|].
  repeat split; intros H; unfold outcome;
    [unfold aws_cli_command | unfold list_route53_hosted_zones
    | unfold get_ec2_instance_size | unfold get_user_permissions | unfold list_s3_buckets];
    run_pym; rewrite H; reflexivity.
Qed.

(* ------------------------------------------------------------------ *)
(** ** C2: the CLI passthrough *)

Lemma cli_env_lookup (environ : gmap string string) (c : creds) :
  cli_env environ c !! "AWS_ACCESS_KEY_ID" = Some (cred_access c) /\
  cli_env environ c !! "AWS_SECRET_ACCESS_KEY" = Some (cred_secret c) /\
  cli_env environ c !! "AWS_DEFAULT_REGION" = Some (cred_region c) /\
  (forall k, k <> "AWS_ACCESS_KEY_ID" -> k <> "AWS_SECRET_ACCESS_KEY" ->
             k <> "AWS_DEFAULT_REGION" -> cli_env environ c !! k = Some <$> environ !! k).
Proof.
  unfold cli_env. split; [|split; [|split]].
  - rewrite lookup_insert_ne by done. rewrite lookup_insert_ne by done.
    apply lookup_insert_eq.
  - rewrite lookup_insert_ne by done. apply lookup_insert_eq.
  - apply lookup_insert_eq.
  - intros k H1 H2 H3.
    rewrite !lookup_insert_ne by congruence. apply lookup_fmap.
Qed.

(** C2. On input "ec2 describe-regions" the CLI tool spawns exactly one
    process, the binary "aws" with arguments ["ec2"; "describe-regions"],
    in a copy of [os.environ] where the three credential variables are set
    to the module's credentials and every other variable is inherited; it
    returns the captured stdout on exit code 0 and "Error: " followed by
    the captured stderr on any other exit code. *)
Theorem cli_command_ec2_describe_regions
  (subprocess_run : list string -> gmap string (option string) -> exn + completed)
  (environ : gmap string string) (s : state) :
  exists env,
    new_events (aws_cli_command subprocess_run environ "ec2 describe-regions") s
      = [EvSpawn ["aws"; "ec2"; "describe-regions"] env] /\
    env !! "AWS_ACCESS_KEY_ID" = Some (cred_access (st_creds s)) /\
    env !! "AWS_SECRET_ACCESS_KEY" = Some (cred_secret (st_creds s)) /\
    env !! "AWS_DEFAULT_REGION" = Some (cred_region (st_creds s)) /\
    (forall k, k <> "AWS_ACCESS_KEY_ID" -> k <> "AWS_SECRET_ACCESS_KEY" ->
               k <> "AWS_DEFAULT_REGION" -> env !! k = Some <$> environ !! k) /\
    (forall r, subprocess_run ["aws"; "ec2"; "describe-regions"] env = inr r ->
       returncode r = 0%Z ->
       outcome (aws_cli_command subprocess_run environ "ec2 describe-regions" s)
       = inr (stdout r)) /\
    (forall r, subprocess_run ["aws"; "ec2"; "describe-regions"] env = inr r ->
       returncode r <> 0%Z ->
       outcome (aws_cli_command subprocess_run environ "ec2 describe-regions" s)
       = inr ("Error: " +:+ stderr r)).
Proof.
  exists (cli_env environ (st_creds s)).
  destruct (cli_env_lookup environ (st_creds s)) as (H1 & H2 & H3 & H4).
  split; [|split; [exact H1|split; [exact H2|split; [exact H3|split; [exact H4|]]]]].
  - unfold new_events, aws_cli_command. run_pym.
    destruct (subprocess_run _ _) as [e|r]; simpl.
    + apply drop_app_length.
    + destruct (Z.eqb (returncode r) 0); apply drop_app_length.
  - split; intros r Hr Hc; unfold aws_cli_command, outcome; run_pym;
      change (py_split "ec2 describe-regions") with ["ec2"; "describe-regions"];
      rewrite Hr; simpl.
    + rewrite Hc. reflexivity.
    + apply Z.eqb_neq in Hc. rewrite Hc. reflexivity.
Qed.

(* ------------------------------------------------------------------ *)
(** ** C3, C9: the EC2 instance-size tool *)

(** C3. For every private IP: when the response's Reservations list is
    empty the tool returns "No EC2 instance found with IP address: " and
    the IP; when it holds a reservation whose Instances list starts with an
    instance of type [t], the tool returns a string naming the IP and [t],
    whatever the later reservations and instances are. *)
Theorem ec2_instance_size_first_match
  (api : handle -> string -> list (string * pyval) -> exn + pyval)
  (s : state) (instance_ip : string) :
  (forall response,
     api (st_ec2 s) "describe_instances" (ec2_filters instance_ip) = inr response ->
     getitem response (KStr "Reservations") = inr (PList []) ->
     outcome (get_ec2_instance_size api instance_ip s)
     = inr ("No EC2 instance found with IP address: " +:+ instance_ip)) /\
  (forall response r rs i is t,
     api (st_ec2 s) "describe_instances" (ec2_filters instance_ip) = inr response ->
     getitem response (KStr "Reservations") = inr (PList (r :: rs)) ->
     getitem r (KStr "Instances") = inr (PList (i :: is)) ->
     getitem i (KStr "InstanceType") = inr (PStr t) ->
     outcome (get_ec2_instance_size api instance_ip s)
     = inr ("EC2 instance " +:+ instance_ip +:+ " is of type: " +:+ t)).
Proof.
  split.
  - intros response Hapi Hres. unfold get_ec2_instance_size, outcome. run_pym.
    rewrite Hapi. simpl. rewrite Hres. reflexivity.
  - intros response r rs i is t Hapi Hres Hinst Htype.
    unfold get_ec2_instance_size, outcome. run_pym.
    rewrite Hapi. simpl. rewrite Hres. simpl. rewrite Hinst. simpl.
    rewrite Htype. reflexivity.
Qed.

(** C9. When the response has a reservation whose Instances list is
    empty, the [IndexError] of [[0]] is caught by the tool's own handler:
    the result is "Error getting EC2 instance size: list index out of
    range", not the "No EC2 instance found" message. *)
Theorem ec2_empty_instances_error
  (api : handle -> string -> list (string * pyval) -> exn + pyval)
  (s : state) (instance_ip : string) (response r : pyval) (rs : list pyval) :
  api (st_ec2 s) "describe_instances" (ec2_filters instance_ip) = inr response ->
  getitem response (KStr "Reservations") = inr (PList (r :: rs)) ->
  getitem r (KStr "Instances") = inr (PList []) ->
  outcome (get_ec2_instance_size api instance_ip s)
  = inr ("Error getting EC2 instance size: " +:+ "list index out of range") /\
  outcome (get_ec2_instance_size api instance_ip s)
  <> inr ("No EC2 instance found with IP address: " +:+ instance_ip).
Proof.
  intros Hapi Hres Hinst.
  assert (E : outcome (get_ec2_instance_size api instance_ip s)
              = inr ("Error getting EC2 instance size: " +:+ "list index out of range")).
  { unfold get_ec2_instance_size, outcome. run_pym.
    rewrite Hapi. simpl. rewrite Hres. simpl. rewrite Hinst. reflexivity. }
  split; [exact E|]. rewrite E. intros H. inversion H.
Qed.

(* ------------------------------------------------------------------ *)
(** ** C10: argument splitting of the CLI tool *)

Lemma sapp_empty_r (a : string) : a +:+ EmptyString = a.
Proof. induction a as [|c a IH]; simpl; [reflexivity|f_equal; exact IH]. Qed.

Lemma sapp_assoc (a b c : string) : (a +:+ b) +:+ c = a +:+ (b +:+ c).
Proof. induction a as [|x a IH]; simpl; [reflexivity|now rewrite IH]. Qed.

Lemma all_chars_app (p : ascii -> bool) (a b : string) :
  all_chars p (a +:+ b) = all_chars p a && all_chars p b.
Proof.
  induction a as [|c a IH]; simpl; [reflexivity|].
  rewrite IH. apply andb_assoc.
Qed.

Lemma split_go_filter (s cur : string) :
  split_go s cur = List.filter (fun w => negb (String.eqb w EmptyString)) (split_each_go s cur).
Proof.
  revert cur. induction s as [|c s IH]; intros cur; simpl.
  - destruct (String.eqb cur EmptyString); reflexivity.
  - destruct (py_isspace c); simpl.
    + rewrite <- !IH. destruct (String.eqb cur EmptyString); reflexivity.
    + apply IH.
Qed.

Lemma split_go_words (s cur : string) :
  all_chars (fun c => negb (py_isspace c)) cur = true ->
  Forall (fun w => w <> EmptyString /\ all_chars (fun c => negb (py_isspace c)) w = true)
         (split_go s cur).
Proof.
  revert cur. induction s as [|c s IH]; intros cur Hcur; simpl.
  - destruct (String.eqb cur EmptyString) eqn:E; [constructor|].
    apply String.eqb_neq in E. repeat constructor; assumption.
  - destruct (py_isspace c) eqn:Hc.
    + destruct (String.eqb cur EmptyString) eqn:E.
      * apply IH. reflexivity.
      * apply String.eqb_neq in E. constructor; [split; assumption|].
        apply IH. reflexivity.
    + apply IH. rewrite all_chars_app, Hcur. simpl. rewrite Hc. reflexivity.
Qed.

Lemma split_go_blank (s : string) :
  all_chars py_isspace s = true -> split_go s EmptyString = [].
Proof.
  induction s as [|c s IH]; simpl; [reflexivity|].
  intros H. apply andb_prop in H as [Hc Hs]. rewrite Hc. simpl. apply IH, Hs.
Qed.

Lemma cli_command_spawn_event
  (subprocess_run : list string -> gmap string (option string) -> exn + completed)
  (environ : gmap string string) (s : state) (command : string) :
  new_events (aws_cli_command subprocess_run environ command) s
  = [EvSpawn ("aws" :: py_split command) (cli_env environ (st_creds s))].
Proof.
  unfold new_events, aws_cli_command. run_pym.
  destruct (subprocess_run _ _) as [e|r]; simpl.
  - apply drop_app_length.
  - destruct (Z.eqb (returncode r) 0); apply drop_app_length.
Qed.

(** C10. The arguments passed after "aws" are [command.split()]: the
    pieces between single whitespace characters with the empty ones
    dropped (so runs of whitespace count as one separator); every argument
    is non-empty and free of whitespace; and an empty or all-whitespace
    command spawns "aws" with no argument at all. *)
Theorem cli_command_split_arguments
  (subprocess_run : list string -> gmap string (option string) -> exn + completed)
  (environ : gmap string string) (s : state) (command : string) :
  new_events (aws_cli_command subprocess_run environ command) s
    = [EvSpawn ("aws" :: py_split command) (cli_env environ (st_creds s))] /\
  py_split command
    = List.filter (fun w => negb (String.eqb w EmptyString)) (split_each command) /\
  Forall (fun w => w <> EmptyString /\ all_chars (fun c => negb (py_isspace c)) w = true)
         (py_split command) /\
  (all_chars py_isspace command = true ->
   py_split command = [] /\
   new_events (aws_cli_command subprocess_run environ command) s
     = [EvSpawn ["aws"] (cli_env environ (st_creds s))]).
Proof.
  split; [apply cli_command_spawn_event|].
  split; [apply split_go_filter|].
  split; [apply split_go_words; reflexivity|].
  intros Hblank. assert (E : py_split command = []) by (apply split_go_blank, Hblank).
  split; [exact E|]. rewrite cli_command_spawn_event, E. reflexivity.
Qed.

(* ------------------------------------------------------------------ *)
(** ** Tools seen from the harness *)

Ltac tool_run_leaf :=
  eexists _, _, _; split; [reflexivity|];
  split; [rewrite <- ?app_assoc; reflexivity|];
  repeat (constructor || exact I).

Ltac tool_run_tac :=
  intros s; run_pym;
  repeat (match goal with
          | |- context [match ?x with _ => _ end] =>
              lazymatch x with
              | context [match _ with _ => _ end] => fail
              | _ => destruct x
              end
          end; simpl);
  tool_run_leaf.

Lemma list_s3_buckets_run api : tool_run_spec (list_s3_buckets api).
Proof. unfold tool_run_spec, list_s3_buckets. tool_run_tac. Qed.

Lemma list_route53_hosted_zones_run api : tool_run_spec (list_route53_hosted_zones api).
Proof. unfold tool_run_spec, list_route53_hosted_zones. tool_run_tac. Qed.

Lemma get_ec2_instance_size_run api ip : tool_run_spec (get_ec2_instance_size api ip).
Proof. unfold tool_run_spec, get_ec2_instance_size. tool_run_tac. Qed.

Lemma get_user_permissions_run api u : tool_run_spec (get_user_permissions api u).
Proof. unfold tool_run_spec, get_user_permissions. tool_run_tac. Qed.

Lemma aws_cli_command_run run environ command :
  tool_run_spec (aws_cli_command run environ command).
Proof. unfold tool_run_spec, aws_cli_command. tool_run_tac. Qed.

Lemma run_tool_run api (t : tool_call) (s : state) :
  exists s' r l, run_tool api t s = (s', inr r) /\
    st_log s' = (st_log s ++ EvInvoke t :: l)%list /\ Forall tool_event l.
Proof.
  assert (Hspec : tool_run_spec match t with
                                | CallS3 => list_s3_buckets api
                                | CallRoute53 => list_route53_hosted_zones api
                                | CallEC2 ip => get_ec2_instance_size api ip
                                | CallIAM u => get_user_permissions api u
                                end).
  { destruct t; auto using list_s3_buckets_run, list_route53_hosted_zones_run,
      get_ec2_instance_size_run, get_user_permissions_run. }
  unfold run_tool, py_bind, emit. simpl.
  destruct (Hspec (State (st_creds s) (st_ec2 s) (st_route53 s) (st_iam s) (st_next_id s)
                         (st_log s ++ [EvInvoke t])))
    as (s' & r & l & E & L & F).
  rewrite E.
  exists s', r, l. split; [reflexivity|]. split; [|exact F].
  rewrite L. simpl. rewrite <- app_assoc. reflexivity.
Qed.

Arguments run_tool : simpl never.

(** The lines printed before the model is asked. *)
Definition banner (query : string) : list event :=
  [EvPrint (nl +:+ rule50); EvPrint ("Query: " +:+ query); EvPrint rule50].

Ltac iteration_branch :=
  match goal with |- context [run_tool ?api ?t ?s1] =>
    let Hr := fresh "Hr" in let Hl := fresh "Hl" in let Hf := fresh "Hf" in
    destruct (run_tool_run api t s1) as (s2 & r & l & Hr & Hl & Hf); rewrite Hr;
    simpl; eexists _, _; split; [reflexivity|]; split;
    [rewrite Hl; simpl; rewrite <- !app_assoc; simpl; reflexivity
    | eexists _, _, _; split; [reflexivity|exact Hf]]
  end.

Lemma agent_iteration_run api llm (query : string) (s : state) :
  match llm query with
  | inl e => exists s',
      agent_iteration api llm query s = (s', inl e) /\
      st_log s' = (st_log s ++ banner query ++ [EvLLM query])%list
  | inr content => exists s' l,
      agent_iteration api llm query s = (s', inr tt) /\
      st_log s' = (st_log s ++ banner query ++
                   [EvLLM query; EvPrint "Agent response:"; EvPrint content] ++ l)%list /\
      match dispatch query with
      | None => l = []
      | Some t => exists msg r l',
          l = (EvPrint msg :: EvInvoke t :: l' ++ [EvPrint ("Result: " +:+ r)])%list /\
          Forall tool_event l'
      end
  end.
Proof.
  unfold agent_iteration, banner. run_pym.
  destruct (llm query) as [e|content]; simpl.
  - eexists. split; [reflexivity|]. rewrite <- !app_assoc. reflexivity.
  - unfold dispatch.
    destruct (py_contains "s3" (py_lower query) && py_contains "bucket" (py_lower query));
      [iteration_branch|].
    destruct (py_contains "route 53" (py_lower query)
              || py_contains "hosted zone" (py_lower query)); [iteration_branch|].
    destruct (py_contains "ec2" (py_lower query) && py_contains "10.0.1.112" query);
      [iteration_branch|].
    destruct (py_contains "iam" (py_lower query)
              && py_contains "take-home-coding" (py_lower query)); [iteration_branch|].
    simpl. eexists _, _. split; [reflexivity|].
    split; [rewrite <- !app_assoc; simpl; reflexivity | reflexivity].
Qed.

(* ------------------------------------------------------------------ *)
(** ** Reading logs *)

Lemma invoked_app (l1 l2 : list event) :
  invoked (l1 ++ l2)%list = (invoked l1 ++ invoked l2)%list.
Proof. induction l1 as [|[] l1 IH]; simpl; rewrite ?IH; reflexivity. Qed.

Lemma printed_app (l1 l2 : list event) :
  printed (l1 ++ l2)%list = (printed l1 ++ printed l2)%list.
Proof. induction l1 as [|[] l1 IH]; simpl; rewrite ?IH; reflexivity. Qed.

Lemma invoked_tool_events (l : list event) : Forall tool_event l -> invoked l = [].
Proof. induction 1 as [|[] l H _ IH]; simpl in *; tauto. Qed.

Lemma printed_tool_events (l : list event) : Forall tool_event l -> printed l = [].
Proof. induction 1 as [|[] l H _ IH]; simpl in *; tauto. Qed.

(* ------------------------------------------------------------------ *)
(** ** Substrings *)

Lemma prefix_iff (n h : string) :
  String.prefix n h = true <-> exists r, h = n +:+ r.
Proof.
  revert h. induction n as [|c n IH]; intros h; simpl.
  - split; [intros _; exists h; reflexivity | intros _; destruct h; reflexivity].
  - destruct h as [|d h]; simpl.
    + split; [discriminate|]. intros [r Hr]. discriminate.
    + destruct (ascii_dec c d) as [->|Hcd].
      * rewrite IH. split; intros [r Hr]; exists r; [now rewrite Hr|now injection Hr].
      * split; [discriminate|]. intros [r Hr]. injection Hr. intros _ E. congruence.
Qed.

Lemma py_contains_unfold (n h : string) :
  py_contains n h =
  String.prefix n h || match h with EmptyString => false | String _ h' => py_contains n h' end.
Proof. destruct h; reflexivity. Qed.

Lemma py_contains_iff (n h : string) :
  py_contains n h = true <-> exists a b, h = a +:+ n +:+ b.
Proof.
  induction h as [|c h IH]; rewrite py_contains_unfold.
  - rewrite orb_false_r, prefix_iff. split.
    + intros [r Hr]. exists EmptyString, r. exact Hr.
    + intros [a [b Hab]]. destruct a; [exists b; exact Hab|discriminate].
  - rewrite orb_true_iff, prefix_iff, IH. split.
    + intros [[r Hr]|[a [b Hab]]].
      * exists EmptyString, r. exact Hr.
      * exists (String c a), b. simpl. now rewrite Hab.
    + intros [a [b Hab]]. destruct a as [|d a].
      * left. exists b. exact Hab.
      * right. injection Hab. intros E _. exists a, b. exact E.
Qed.

Lemma py_lower_app (a b : string) : py_lower (a +:+ b) = py_lower a +:+ py_lower b.
Proof. induction a as [|c a IH]; simpl; [reflexivity|now rewrite IH]. Qed.

(** A lower-case needle found in the query is found in [query.lower()]. *)
Lemma py_contains_lower (n query : string) :
  py_lower n = n -> py_contains n query = true -> py_contains n (py_lower query) = true.
Proof.
  intros Hn. rewrite !py_contains_iff. intros [a [b ->]].
  exists (py_lower a), (py_lower b). now rewrite !py_lower_app, Hn.
Qed.

Lemma py_contains_widen (n a b h : string) :
  py_contains (a +:+ n +:+ b) h = true -> py_contains n h = true.
Proof.
  rewrite !py_contains_iff. intros [x [y ->]].
  exists (x +:+ a), (b +:+ y). now rewrite !sapp_assoc.
Qed.

(* ------------------------------------------------------------------ *)
(** ** C4: first-match dispatch *)

(** C4. The tools an iteration invokes are determined by the query text
    alone: none when the model call raises, otherwise exactly the tool of
    the first matching rule ([dispatch]), or none; a query containing
    "s3 bucket" and "hosted zone" invokes the S3 listing and nothing else. *)
Theorem dispatch_first_match api llm (query : string) (s : state) :
  invoked (st_log (fst (agent_iteration api llm query s)))
    = (invoked (st_log s) ++
       match llm query with
       | inl _ => []
       | inr _ => match dispatch query with Some t => [t] | None => [] end
       end)%list /\
  (py_contains "s3 bucket" query = true -> py_contains "hosted zone" query = true ->
   dispatch query = Some CallS3 /\
   invoked (st_log (fst (agent_iteration api llm query s)))
     = (invoked (st_log s) ++
        match llm query with inl _ => [] | inr _ => [CallS3] end)%list).
Proof.
  assert (Hinv : invoked (st_log (fst (agent_iteration api llm query s)))
    = (invoked (st_log s) ++
       match llm query with
       | inl _ => []
       | inr _ => match dispatch query with Some t => [t] | None => [] end
       end)%list).
  { pose proof (agent_iteration_run api llm query s) as H.
    destruct (llm query) as [e|content].
    - destruct H as (s' & -> & Hl). simpl. rewrite Hl, !invoked_app. simpl.
      now rewrite app_nil_r.
    - destruct H as (s' & l & -> & Hl & Hd). simpl. rewrite Hl, !invoked_app. simpl.
      destruct (dispatch query) as [t|].
      + destruct Hd as (msg & r & l' & -> & Hf). simpl.
        rewrite invoked_app, (invoked_tool_events l' Hf). reflexivity.
      + subst l. reflexivity. }
  split; [exact Hinv|].
  intros Hs3 _.
  assert (Hd : dispatch query = Some CallS3).
  { unfold dispatch.
    rewrite (py_contains_lower "s3" query eq_refl
               (py_contains_widen "s3" "" " bucket" query Hs3)).
    rewrite (py_contains_lower "bucket" query eq_refl
               (py_contains_widen "bucket" "s3 " "" query Hs3)).
    reflexivity. }
  split; [exact Hd|]. rewrite Hinv, Hd. reflexivity.
Qed.

(* ------------------------------------------------------------------ *)
(** ** C6: the harness loop absorbs every iteration error *)

Lemma agent_loop_returns api llm (queries : list string) (s : state) :
  returns (agent_loop api llm queries s).
Proof.
  revert s. induction queries as [|query rest IH]; intros s.
  - exists tt. reflexivity.
  - simpl. unfold py_bind, py_try, py_print, emit.
    destruct (agent_iteration api llm query s) as [s1 [e|u]]; apply IH.
Qed.

(** C6. The harness never ends with an exception, for any model and any
    AWS behaviour, on the fixed query list as on any other; when an
    iteration raises [e] (for instance because the model call raised
    [e]), the loop prints "Error: " followed by [str(e)] and goes on with
    the next query from the state the failed iteration left. *)
Theorem harness_absorbs_iteration_errors api llm (s : state) :
  returns (test_aws_agent api llm s) /\
  (forall queries, returns (agent_loop api llm queries s)) /\
  (forall query e, llm query = inl e ->
     exists s1, agent_iteration api llm query s = (s1, inl e)) /\
  (forall query rest e s1,
     agent_iteration api llm query s = (s1, inl e) ->
     agent_loop api llm (query :: rest) s
     = agent_loop api llm rest
         (State (st_creds s1) (st_ec2 s1) (st_route53 s1) (st_iam s1) (st_next_id s1)
                (st_log s1 ++ [EvPrint ("Error: " +:+ str_exn e)]))).
Proof.
  split; [apply agent_loop_returns|].
  split; [intros; apply agent_loop_returns|].
  split.
  - intros query e He. pose proof (agent_iteration_run api llm query s) as H.
    rewrite He in H. destruct H as (s' & E & _). exists s'. exact E.
  - intros query rest e s1 H. simpl. unfold py_bind, py_try, py_print, emit.
    rewrite H. reflexivity.
Qed.

(* ------------------------------------------------------------------ *)
(** ** C7: queries no rule matches *)

(** C7. When no rule matches the query, its loop iteration invokes no
    tool and prints no tool output: it prints exactly the banner (a newline
    and fifty '=', "Query: " and the query, fifty '='), then "Agent
    response:" and the model's text when the model answers, or "Error: "
    and the exception's text when the model call raises. *)
Theorem no_rule_no_tool api llm (query : string) (s : state) :
  dispatch query = None ->
  invoked (st_log (fst (agent_loop api llm [query] s))) = invoked (st_log s) /\
  printed (st_log (fst (agent_loop api llm [query] s)))
    = (printed (st_log s) ++ [nl +:+ rule50; "Query: " +:+ query; rule50] ++
       match llm query with
       | inr content => ["Agent response:"; content]
       | inl e => ["Error: " +:+ str_exn e]
       end)%list.
Proof.
  intros Hd. pose proof (agent_iteration_run api llm query s) as H.
  simpl. unfold py_bind, py_try, py_print, emit, py_ret.
  destruct (llm query) as [e|content].
  - destruct H as (s' & -> & Hl). simpl. rewrite Hl, !invoked_app, !printed_app.
    simpl. rewrite !app_nil_r, <- !app_assoc. split; reflexivity.
  - rewrite Hd in H. destruct H as (s' & l & -> & Hl & ->). simpl.
    rewrite Hl, !invoked_app, !printed_app. simpl. now rewrite app_nil_r.
Qed.

(* ------------------------------------------------------------------ *)
(** ** C8: the S3 tool builds its own client *)

Ltac no_client_leaf :=
  split; [repeat split|]; split; [reflexivity|];
  eexists; split; [rewrite <- ?app_assoc; reflexivity|];
  simpl; repeat (constructor || exact I).

Ltac no_client_tac :=
  intros s; run_pym;
  repeat (match goal with
          | |- context [match ?x with _ => _ end] =>
              lazymatch x with
              | context [match _ with _ => _ end] => fail
              | _ => destruct x
              end
          end; simpl);
  no_client_leaf.

Lemma aws_cli_command_no_client run environ command :
  builds_no_client (aws_cli_command run environ command).
Proof. unfold builds_no_client, aws_cli_command. no_client_tac. Qed.

Lemma list_route53_hosted_zones_no_client api :
  builds_no_client (list_route53_hosted_zones api).
Proof. unfold builds_no_client, list_route53_hosted_zones. no_client_tac. Qed.

Lemma get_ec2_instance_size_no_client api ip :
  builds_no_client (get_ec2_instance_size api ip).
Proof. unfold builds_no_client, get_ec2_instance_size. no_client_tac. Qed.

Lemma get_user_permissions_no_client api u :
  builds_no_client (get_user_permissions api u).
Proof. unfold builds_no_client, get_user_permissions. no_client_tac. Qed.

Lemma list_s3_buckets_state api (s : state) :
  exists l,
    fst (list_s3_buckets api s)
    = State (st_creds s) (st_ec2 s) (st_route53 s) (st_iam s) (S (st_next_id s))
            (st_log s ++ EvClient (Handle "s3" (st_creds s) (st_next_id s)) :: l)%list /\
    Forall not_client l.
Proof.
  unfold list_s3_buckets. run_pym.
  repeat (match goal with
          | |- context [match ?x with _ => _ end] =>
              lazymatch x with
              | context [match _ with _ => _ end] => fail
              | _ => destruct x
              end
          end; simpl);
  (eexists; split; [rewrite <- ?app_assoc; reflexivity|];
   simpl; repeat (constructor || exact I)).
Qed.

(** C8. Every run of [list_s3_buckets] builds one new "s3" client from
    the module's credential triple, with an identity no earlier object
    has (so it is neither one of the three module-level handles nor a
    client built by an earlier call), keeps the module-level credentials
    and handles unchanged, and builds nothing else; the other four tools
    build no client and allocate nothing. *)
Theorem s3_builds_fresh_client api
  (subprocess_run : list string -> gmap string (option string) -> exn + completed)
  (environ : gmap string string) (command instance_ip user_name : string) (s : state) :
  wf_state s ->
  globals_kept s (fst (list_s3_buckets api s)) /\
  (exists l,
     st_log (fst (list_s3_buckets api s))
     = (st_log s ++ EvClient (Handle "s3" (st_creds s) (st_next_id s)) :: l)%list /\
     Forall not_client l) /\
  Handle "s3" (st_creds s) (st_next_id s) <> st_ec2 s /\
  Handle "s3" (st_creds s) (st_next_id s) <> st_route53 s /\
  Handle "s3" (st_creds s) (st_next_id s) <> st_iam s /\
  (forall h, In (EvClient h) (st_log s) -> Handle "s3" (st_creds s) (st_next_id s) <> h) /\
  wf_state (fst (list_s3_buckets api s)) /\
  builds_no_client (aws_cli_command subprocess_run environ command) /\
  builds_no_client (list_route53_hosted_zones api) /\
  builds_no_client (get_ec2_instance_size api instance_ip) /\
  builds_no_client (get_user_permissions api user_name).
Proof.
  intros (He & Hr & Hi & Hlog).
  destruct (list_s3_buckets_state api s) as (l & E & Hl).
  rewrite E. simpl.
  split; [repeat split|].
  split; [exists l; split; [reflexivity|exact Hl]|].
  split; [intros H; rewrite <- H in He; simpl in He; lia|].
  split; [intros H; rewrite <- H in Hr; simpl in Hr; lia|].
  split; [intros H; rewrite <- H in Hi; simpl in Hi; lia|].
  split.
  { intros h Hin H. rewrite List.Forall_forall in Hlog. specialize (Hlog _ Hin).
    simpl in Hlog. rewrite <- H in Hlog. simpl in Hlog. lia. }
  split.
  { unfold wf_state. simpl. split; [lia|]. split; [lia|]. split; [lia|].
    apply Forall_app. split.
    - eapply Forall_impl; [exact Hlog|]. intros [] H; simpl; auto; lia.
    - constructor; [simpl; lia|].
      eapply Forall_impl; [exact Hl|]. intros [] H; simpl in *; auto; contradiction. }
  split; [apply aws_cli_command_no_client|].
  split; [apply list_route53_hosted_zones_no_client|].
  split; [apply get_ec2_instance_size_no_client|].
  apply get_user_permissions_no_client.
Qed.

(* ------------------------------------------------------------------ *)
(** ** C5: success responses *)

Lemma comprehension_names (k : string) (zs : list pyval) (names : list string) :
  Forall2 (fun z n => getitem z (KStr k) = inr (PStr n)) zs names ->
  comprehension (fun z => getitem z (KStr k)) zs = inr (map PStr names).
Proof. induction 1 as [|z n zs names H _ IH]; simpl; [reflexivity|]. now rewrite H, IH. Qed.

Lemma all_chars_impl (p q : ascii -> bool) (s : string) :
  (forall c, p c = true -> q c = true) -> all_chars p s = true -> all_chars q s = true.
Proof.
  intros Hpq. induction s as [|c s IH]; simpl; [reflexivity|].
  intros H. apply andb_prop in H as [H1 H2]. now rewrite (Hpq c H1), IH.
Qed.

Lemma has_char_false (q : ascii) (s : string) :
  has_char q s = false -> all_chars (fun c => negb (Ascii.eqb c q)) s = true.
Proof.
  induction s as [|c s IH]; simpl; [reflexivity|].
  intros H. apply orb_false_iff in H as [H1 H2].
  rewrite Ascii.eqb_sym, H1. simpl. apply IH, H2.
Qed.

Lemma all_chars_and (p q : ascii -> bool) (s : string) :
  all_chars p s = true -> all_chars q s = true -> all_chars (fun c => p c && q c) s = true.
Proof.
  induction s as [|c s IH]; simpl; [reflexivity|].
  intros H1 H2. apply andb_prop in H1 as [H1 H1']. apply andb_prop in H2 as [H2 H2'].
  rewrite H1, H2, IH; auto.
Qed.

Lemma repr_char_plain (q c : ascii) :
  py_isprintable c && negb (Ascii.eqb c bslash) && negb (Ascii.eqb c q) = true ->
  repr_char q c = str1 c.
Proof.
  intros H. apply andb_prop in H as [H Hq]. apply andb_prop in H as [Hp Hb].
  apply negb_true_iff in Hq, Hb.
  unfold repr_char. rewrite Hq, Hb, Hp. simpl.
  unfold py_isprintable, code in *.
  destruct (Nat.leb_spec 32 (nat_of_ascii c)) as [H32|H32]; [|discriminate].
  destruct (Nat.eqb_spec (nat_of_ascii c) 127) as [E|E]; [simpl in Hp; discriminate|].
  destruct (Nat.eqb_spec (nat_of_ascii c) 9); [lia|].
  destruct (Nat.eqb_spec (nat_of_ascii c) 10); [lia|].
  destruct (Nat.eqb_spec (nat_of_ascii c) 13); [lia|].
  destruct (Nat.ltb_spec (nat_of_ascii c) 32); [lia|].
  reflexivity.
Qed.

Lemma repr_body_plain (q : ascii) (s : string) :
  all_chars (fun c => py_isprintable c && negb (Ascii.eqb c bslash) && negb (Ascii.eqb c q)) s
    = true ->
  repr_body q s = s.
Proof.
  induction s as [|c s IH]; simpl; [reflexivity|].
  intros H. apply andb_prop in H as [Hc Hs].
  rewrite (repr_char_plain q c Hc), IH by exact Hs. reflexivity.
Qed.

Lemma repr_str_verbatim (s : string) :
  repr_verbatim s = true -> exists q, repr_str s = String q (s +:+ str1 q).
Proof.
  unfold repr_verbatim, repr_str. intros H. apply andb_prop in H as [Hp Hq].
  destruct (has_char sq s) eqn:Hsq; destruct (has_char dq s) eqn:Hdq;
    simpl in *; try discriminate.
  - exists dq. rewrite repr_body_plain; [reflexivity|].
    apply all_chars_and; [exact Hp|]. apply has_char_false, Hdq.
  - exists sq. rewrite repr_body_plain; [reflexivity|].
    apply all_chars_and; [exact Hp|]. apply has_char_false, Hsq.
  - exists sq. rewrite repr_body_plain; [reflexivity|].
    apply all_chars_and; [exact Hp|]. apply has_char_false, Hsq.
Qed.

Lemma occurs_in_order_frame (names : list string) (text : string) :
  occurs_in_order names text ->
  forall pre post, occurs_in_order names (pre +:+ text +:+ post).
Proof.
  induction 1 as [text|before name after names H IH]; intros pre post.
  - constructor.
  - replace (pre +:+ (before +:+ name +:+ after) +:+ post)
      with ((pre +:+ before) +:+ name +:+ (after +:+ post))
      by (now rewrite !sapp_assoc).
    constructor. rewrite <- (sapp_empty_r after) in IH.
    specialize (IH EmptyString post). rewrite sapp_empty_r in IH. exact IH.
Qed.

Lemma occurs_in_order_join (names : list string) :
  occurs_in_order (List.filter repr_verbatim names) (join ", " (map repr_str names)).
Proof.
  induction names as [|n names IH]; [constructor|].
  destruct (repr_verbatim n) eqn:Hn.
  - destruct (repr_str_verbatim n Hn) as [q Hq]. cbn [List.filter]. rewrite Hn.
    destruct names as [|m names].
    + change (join ", " (map repr_str [n])) with (repr_str n). rewrite Hq.
      change (String q (n +:+ str1 q)) with (str1 q +:+ n +:+ str1 q).
      repeat constructor.
    + change (join ", " (map repr_str (n :: m :: names)))
        with (repr_str n +:+ ", " +:+ join ", " (map repr_str (m :: names))).
      rewrite Hq.
      change (String q (n +:+ str1 q)) with (str1 q +:+ n +:+ str1 q).
      rewrite !sapp_assoc. constructor.
      pose proof (occurs_in_order_frame _ _ IH (str1 q +:+ ", ") EmptyString) as F.
      rewrite sapp_empty_r, sapp_assoc in F. exact F.
  - cbn [List.filter]. rewrite Hn. destruct names as [|m names]; [constructor|].
    change (join ", " (map repr_str (n :: m :: names)))
      with (repr_str n +:+ ", " +:+ join ", " (map repr_str (m :: names))).
    pose proof (occurs_in_order_frame _ _ IH (repr_str n +:+ ", ") EmptyString) as F.
    rewrite sapp_empty_r, sapp_assoc in F. exact F.
Qed.

(** The text of a listing tool: each name whose [repr] escapes nothing
    occurs, in order. *)
Lemma listing_output_in_order (pre : string) (names : list string) :
  occurs_in_order (List.filter repr_verbatim names)
    (pre +:+ py_repr (PList (map PStr names))).
Proof.
  pose proof (occurs_in_order_frame _ _ (occurs_in_order_join names) (pre +:+ "[") "]") as F.
  rewrite sapp_assoc in F.
  change (py_repr (PList (map PStr names)))
    with ("[" +:+ join ", " (map py_repr (map PStr names)) +:+ "]").
  rewrite map_map. exact F.
Qed.

(** C5 fails as stated: Route 53 returns a zone name with an escaped
    character as a backslash escape ("ex\041ample.com." for
    "ex!ample.com."), and [repr] doubles the backslash, so the name does
    not occur in the tool's text; and the CLI tool hands back the standard
    output unchanged, which may itself start with "Error". *)
Lemma tool_success_output_counterexample :
  ~ (exists a b,
       outcome (list_route53_hosted_zones
                  (fun _ _ _ => inr (PDict [("HostedZones",
                                             PList [PDict [("Id", PStr "/hostedzone/Z1");
                                                           ("Name", PStr "ex\041ample.com.")]])]))
                  demo_state)
       = inr (a +:+ "ex\041ample.com." +:+ b)) /\
  outcome (aws_cli_command (fun _ _ => inr (Completed 0 "Error: none found" ""))
             (∅ : gmap string string) "s3 cp s3://notes/today.txt -"
             demo_state)
  = inr "Error: none found".
Proof.
  split; [|vm_compute; reflexivity].
  intros [a [b H]].
  assert (E : outcome (list_route53_hosted_zones
                  (fun _ _ _ => inr (PDict [("HostedZones",
                                             PList [PDict [("Id", PStr "/hostedzone/Z1");
                                                           ("Name", PStr "ex\041ample.com.")]])]))
                  demo_state)
              = inr "Route 53 Hosted Zones: ['ex\\041ample.com.']")
    by (vm_compute; reflexivity).
  rewrite E in H. injection H as H.
  assert (Hc : py_contains "ex\041ample.com." "Route 53 Hosted Zones: ['ex\\041ample.com.']"
               = true) by (apply py_contains_iff; exists a, b; exact H).
  vm_compute in Hc. discriminate.
Qed.

(** C5 (as the code does it). On a success response, the Route 53, IAM
    and S3 tools return their fixed prefix followed by Python's [repr] of
    the list of names in response order, which contains every name whose
    [repr] escapes nothing (no backslash, no non-printable character, not
    both quote kinds) verbatim and in that order, whatever the other names
    are; the EC2 tool names the first
    instance's type; none of these four starts with "Error". The CLI tool,
    on exit code 0, returns the standard output unchanged. *)
Theorem tools_success_output api
  (subprocess_run : list string -> gmap string (option string) -> exn + completed)
  (environ : gmap string string) (s : state) (command instance_ip user_name : string) :
  (forall response zones names,
     api (st_route53 s) "list_hosted_zones" [] = inr response ->
     getitem response (KStr "HostedZones") = inr (PList zones) ->
     Forall2 (fun z n => getitem z (KStr "Name") = inr (PStr n)) zones names ->
     outcome (list_route53_hosted_zones api s)
       = inr ("Route 53 Hosted Zones: " +:+ py_repr (PList (map PStr names))) /\
     String.prefix "Error" ("Route 53 Hosted Zones: " +:+ py_repr (PList (map PStr names)))
       = false /\
     occurs_in_order (List.filter repr_verbatim names)
       ("Route 53 Hosted Zones: " +:+ py_repr (PList (map PStr names)))) /\
  (forall response policies names,
     api (st_iam s) "list_attached_user_policies" [("UserName", PStr user_name)]
       = inr response ->
     getitem response (KStr "AttachedPolicies") = inr (PList policies) ->
     Forall2 (fun p n => getitem p (KStr "PolicyName") = inr (PStr n)) policies names ->
     outcome (get_user_permissions api user_name s)
       = inr ("IAM user '" +:+ user_name +:+ "' has these policies: "
              +:+ py_repr (PList (map PStr names))) /\
     String.prefix "Error" ("IAM user '" +:+ user_name +:+ "' has these policies: "
                            +:+ py_repr (PList (map PStr names))) = false /\
     occurs_in_order (List.filter repr_verbatim names)
       ("IAM user '" +:+ user_name +:+ "' has these policies: "
        +:+ py_repr (PList (map PStr names)))) /\
  (forall response buckets names,
     api (Handle "s3" (st_creds s) (st_next_id s)) "list_buckets" [] = inr response ->
     getitem response (KStr "Buckets") = inr (PList buckets) ->
     Forall2 (fun b n => getitem b (KStr "Name") = inr (PStr n)) buckets names ->
     outcome (list_s3_buckets api s)
       = inr ("S3 Buckets: " +:+ py_repr (PList (map PStr names))) /\
     String.prefix "Error" ("S3 Buckets: " +:+ py_repr (PList (map PStr names))) = false /\
     occurs_in_order (List.filter repr_verbatim names)
       ("S3 Buckets: " +:+ py_repr (PList (map PStr names)))) /\
  (forall response r rs i is t,
     api (st_ec2 s) "describe_instances" (ec2_filters instance_ip) = inr response ->
     getitem response (KStr "Reservations") = inr (PList (r :: rs)) ->
     getitem r (KStr "Instances") = inr (PList (i :: is)) ->
     getitem i (KStr "InstanceType") = inr (PStr t) ->
     outcome (get_ec2_instance_size api instance_ip s)
       = inr ("EC2 instance " +:+ instance_ip +:+ " is of type: " +:+ t) /\
     String.prefix "Error" ("EC2 instance " +:+ instance_ip +:+ " is of type: " +:+ t) = false /\
     occurs_in_order [t] ("EC2 instance " +:+ instance_ip +:+ " is of type: " +:+ t)) /\
  (forall r,
     subprocess_run ("aws" :: py_split command) (cli_env environ (st_creds s)) = inr r ->
     returncode r = 0%Z ->
     outcome (aws_cli_command subprocess_run environ command s) = inr (stdout r)).
Proof.
  split; [|split; [|split; [|split]]].
  - intros response zones names Hapi Hres Hn.
    split; [|split; [reflexivity|apply listing_output_in_order]].
    unfold list_route53_hosted_zones, outcome. run_pym.
    rewrite Hapi. simpl. rewrite Hres. simpl. rewrite (comprehension_names _ _ _ Hn).
    reflexivity.
  - intros response policies names Hapi Hres Hn.
    split; [|split; [reflexivity|]].
    + unfold get_user_permissions, outcome. run_pym.
      rewrite Hapi. simpl. rewrite Hres. simpl. rewrite (comprehension_names _ _ _ Hn).
      reflexivity.
    + rewrite <- !sapp_assoc. apply listing_output_in_order.
  - intros response buckets names Hapi Hres Hn.
    split; [|split; [reflexivity|apply listing_output_in_order]].
    unfold list_s3_buckets, outcome. run_pym.
    rewrite Hapi. simpl. rewrite Hres. simpl. rewrite (comprehension_names _ _ _ Hn).
    reflexivity.
  - intros response r rs i is t Hapi Hres Hinst Htype.
    split; [|split; [reflexivity|]].
    + unfold get_ec2_instance_size, outcome. run_pym.
      rewrite Hapi. simpl. rewrite Hres. simpl. rewrite Hinst. simpl.
      rewrite Htype. reflexivity.
    + replace ("EC2 instance " +:+ instance_ip +:+ " is of type: " +:+ t)
        with (("EC2 instance " +:+ instance_ip +:+ " is of type: ") +:+ t +:+ EmptyString)
        by (now rewrite sapp_empty_r, !sapp_assoc).
      repeat constructor.
  - intros r Hr Hc. unfold aws_cli_command, outcome. run_pym.
    rewrite Hr. simpl. rewrite Hc. reflexivity.
Qed.

(* ------------------------------------------------------------------ *)
(** ** Witnesses: the theorems applied to the fixtures *)

Lemma tools_absorb_provider_errors_witness :
  outcome (aws_cli_command missing_aws_run ∅ "ec2 describe-regions" demo_state)
    = inr ("Error executing AWS command: " +:+ str_exn no_binary) /\
  outcome (list_route53_hosted_zones denied_api demo_state)
    = inr ("Error listing Route 53 hosted zones: " +:+ str_exn access_denied) /\
  outcome (get_ec2_instance_size denied_api "10.0.1.112" demo_state)
    = inr ("Error getting EC2 instance size: " +:+ str_exn access_denied) /\
  outcome (get_user_permissions denied_api "take-home-coding" demo_state)
    = inr ("Error getting user permissions: " +:+ str_exn access_denied) /\
  outcome (list_s3_buckets denied_api demo_state)
    = inr ("Error listing S3 buckets: " +:+ str_exn access_denied).
Proof.
  destruct (tools_absorb_provider_errors denied_api missing_aws_run ∅ demo_state
              "ec2 describe-regions" "10.0.1.112" "take-home-coding" no_binary)
    as (_ & _ & _ & _ & _ & Hcli & _).
  destruct (tools_absorb_provider_errors denied_api missing_aws_run ∅ demo_state
              "ec2 describe-regions" "10.0.1.112" "take-home-coding" access_denied)
    as (_ & _ & _ & _ & _ & _ & Hr53 & Hec2 & Hiam & Hs3).
  split; [apply Hcli; reflexivity|].
  split; [apply Hr53; reflexivity|].
  split; [apply Hec2; reflexivity|].
  split; [apply Hiam; reflexivity|].
  apply Hs3; reflexivity.
Defined.

Lemma cli_command_ec2_describe_regions_witness :
  outcome (aws_cli_command ok_run ∅ "ec2 describe-regions" demo_state)
    = inr "REGIONS us-east-1" /\
  outcome (aws_cli_command failing_run ∅ "ec2 describe-regions" demo_state)
    = inr ("Error: " +:+ "aws: error: argument operation: Invalid choice").
Proof.
  split.
  - destruct (cli_command_ec2_describe_regions ok_run ∅ demo_state)
      as (env & _ & _ & _ & _ & _ & Hok & _).
    apply (Hok (Completed 0 "REGIONS us-east-1" "")); [reflexivity|reflexivity].
  - destruct (cli_command_ec2_describe_regions failing_run ∅ demo_state)
      as (env & _ & _ & _ & _ & _ & _ & Hko).
    apply (Hko (Completed 252 "" "aws: error: argument operation: Invalid choice"));
      [reflexivity|discriminate].
Defined.

Lemma ec2_instance_size_first_match_witness :
  outcome (get_ec2_instance_size demo_api "10.0.9.9" demo_state)
    = inr ("No EC2 instance found with IP address: " +:+ "10.0.9.9") /\
  outcome (get_ec2_instance_size demo_api "10.0.1.112" demo_state)
    = inr ("EC2 instance " +:+ "10.0.1.112" +:+ " is of type: " +:+ "t3.micro").
Proof.
  split.
  - apply (proj1 (ec2_instance_size_first_match demo_api demo_state "10.0.9.9")
                 (PDict [("Reservations", PList [])])); reflexivity.
  - apply (proj2 (ec2_instance_size_first_match demo_api demo_state "10.0.1.112")
             (PDict [("Reservations",
                      PList [PDict [("Instances", PList [PDict [("InstanceType", PStr "t3.micro")]])]])])
             (PDict [("Instances", PList [PDict [("InstanceType", PStr "t3.micro")]])]) []
             (PDict [("InstanceType", PStr "t3.micro")]) []); reflexivity.
Defined.

Lemma ec2_empty_instances_error_witness :
  outcome (get_ec2_instance_size demo_api "10.0.0.0" demo_state)
    = inr ("Error getting EC2 instance size: " +:+ "list index out of range").
Proof.
  apply (proj1 (ec2_empty_instances_error demo_api demo_state "10.0.0.0"
                  (PDict [("Reservations", PList [PDict [("Instances", PList [])]])])
                  (PDict [("Instances", PList [])]) [] eq_refl eq_refl eq_refl)).
Defined.

Lemma dispatch_first_match_witness :
  dispatch "Which S3 bucket stores the hosted zone exports? s3 bucket, hosted zone"
    = Some CallS3 /\
  invoked (st_log (fst (agent_iteration demo_api demo_llm
             "Which S3 bucket stores the hosted zone exports? s3 bucket, hosted zone"
             demo_state)))
    = (invoked (st_log demo_state) ++ [CallS3])%list.
Proof.
  apply (proj2 (dispatch_first_match demo_api demo_llm
           "Which S3 bucket stores the hosted zone exports? s3 bucket, hosted zone"
           demo_state)); vm_compute; reflexivity.
Defined.

Lemma harness_absorbs_iteration_errors_witness :
  returns (test_aws_agent demo_api demo_llm demo_state) /\
  exists s1, agent_iteration demo_api demo_llm "List all Route 53 hosted zones" demo_state
             = (s1, inl rate_limited).
Proof.
  destruct (harness_absorbs_iteration_errors demo_api demo_llm demo_state)
    as (Hret & _ & Hllm & _).
  split; [exact Hret|]. apply Hllm. vm_compute. reflexivity.
Defined.

Lemma no_rule_no_tool_witness :
  invoked (st_log (fst (agent_loop demo_api demo_llm ["What time is it?"] demo_state)))
    = invoked (st_log demo_state) /\
  printed (st_log (fst (agent_loop demo_api demo_llm ["What time is it?"] demo_state)))
    = (printed (st_log demo_state) ++
       [nl +:+ rule50; "Query: " +:+ "What time is it?"; rule50;
        "Agent response:"; "I can help with that."])%list.
Proof.
  apply (no_rule_no_tool demo_api demo_llm "What time is it?" demo_state).
  vm_compute. reflexivity.
Defined.

Lemma s3_builds_fresh_client_witness :
  wf_state demo_state /\
  globals_kept demo_state (fst (list_s3_buckets demo_api demo_state)).
Proof.
  assert (Hwf : wf_state demo_state).
  { unfold wf_state. vm_compute. repeat split; repeat constructor; lia. }
  split; [exact Hwf|].
  apply (s3_builds_fresh_client demo_api ok_run ∅ "ec2 describe-regions" "10.0.1.112"
           "take-home-coding" demo_state Hwf).
Defined.

Lemma tools_success_output_witness :
  outcome (list_route53_hosted_zones escaped_zone_api demo_state)
    = inr ("Route 53 Hosted Zones: "
           +:+ py_repr (PList (map PStr ["ex\041ample.com."; "example.com."]))) /\
  occurs_in_order ["example.com."]
    ("Route 53 Hosted Zones: "
     +:+ py_repr (PList (map PStr ["ex\041ample.com."; "example.com."]))) /\
  outcome (list_s3_buckets demo_api demo_state)
    = inr ("S3 Buckets: " +:+ py_repr (PList (map PStr ["assets-prod"; "logs-archive"]))) /\
  outcome (aws_cli_command ok_run ∅ "ec2 describe-regions" demo_state) = inr "REGIONS us-east-1".
Proof.
  destruct (tools_success_output escaped_zone_api ok_run ∅ demo_state "ec2 describe-regions"
              "10.0.1.112" "take-home-coding") as (Hr53 & _).
  destruct (tools_success_output demo_api ok_run ∅ demo_state "ec2 describe-regions"
              "10.0.1.112" "take-home-coding") as (_ & _ & Hs3 & _ & Hcli).
  destruct (Hr53 (PDict [("HostedZones",
                 PList [PDict [("Id", PStr "/hostedzone/Z1"); ("Name", PStr "ex\041ample.com.")];
                        PDict [("Id", PStr "/hostedzone/Z2"); ("Name", PStr "example.com.")]])])
                [PDict [("Id", PStr "/hostedzone/Z1"); ("Name", PStr "ex\041ample.com.")];
                 PDict [("Id", PStr "/hostedzone/Z2"); ("Name", PStr "example.com.")]]
                ["ex\041ample.com."; "example.com."])
    as (Ho & _ & Hin); [reflexivity | reflexivity | repeat constructor |].
  split; [exact Ho|]. split; [exact Hin|]. split.
  - destruct (Hs3 (PDict [("Buckets", PList [PDict [("Name", PStr "assets-prod")];
                                              PDict [("Name", PStr "logs-archive")]])])
                  [PDict [("Name", PStr "assets-prod")]; PDict [("Name", PStr "logs-archive")]]
                  ["assets-prod"; "logs-archive"])
      as (Hs & _); [reflexivity | reflexivity | repeat constructor | exact Hs].
  - apply (Hcli (Completed 0 "REGIONS us-east-1" "")); reflexivity.
Defined.

Lemma cli_command_split_arguments_witness :
  py_split " 	  " = [] /\
  new_events (aws_cli_command ok_run ∅ " 	  ") demo_state
    = [EvSpawn ["aws"] (cli_env ∅ (st_creds demo_state))].
Proof.
  destruct (cli_command_split_arguments ok_run ∅ demo_state " 	  ") as (_ & _ & _ & H).
  apply H. reflexivity.
Defined.

(* ------------------------------------------------------------------ *)
(** ** Further properties: tool runs, the loop, import, splitting, case *)

Ltac destruct_inner :=
  repeat (match goal with
          | |- context [match ?x with _ => _ end] =>
              lazymatch x with
              | context [match _ with _ => _ end] => fail
              | _ => destruct x
              end
          end; simpl).

Lemma tool_fn_state api (t : tool_call) (s : state) :
  fst (tool_fn api t s)
  = State (st_creds s) (st_ec2 s) (st_route53 s) (st_iam s) (allocs t + st_next_id s)
          (st_log s ++ tool_requests t s)%list.
Proof.
  destruct t; unfold tool_fn, list_s3_buckets, list_route53_hosted_zones,
    get_ec2_instance_size, get_user_permissions; run_pym; destruct_inner;
    rewrite <- ?app_assoc; reflexivity.
Qed.

Lemma tool_fn_frame api (t : tool_call) (s : state) (l : list event) :
  outcome (tool_fn api t (set_log s l)) = outcome (tool_fn api t s).
Proof.
  destruct t; unfold tool_fn, list_s3_buckets, list_route53_hosted_zones,
    get_ec2_instance_size, get_user_permissions, outcome; run_pym; destruct_inner;
    reflexivity.
Qed.

Lemma tool_fn_returns api (t : tool_call) (s : state) : returns (tool_fn api t s).
Proof. destruct t; apply py_try_handler_returns. Qed.

Lemma tool_requests_log (t : tool_call) (s : state) (l : list event) :
  tool_requests t (set_log s l) = tool_requests t s.
Proof. destruct t; reflexivity. Qed.

Lemma run_tool_eq api (t : tool_call) (s : state) :
  run_tool api t s
  = (State (st_creds s) (st_ec2 s) (st_route53 s) (st_iam s) (allocs t + st_next_id s)
           (st_log s ++ EvInvoke t :: tool_requests t s)%list,
     outcome (tool_fn api t s)).
Proof.
  unfold run_tool, py_bind, emit. simpl.
  change (match t with
          | CallS3 => list_s3_buckets api
          | CallRoute53 => list_route53_hosted_zones api
          | CallEC2 ip => get_ec2_instance_size api ip
          | CallIAM u => get_user_permissions api u
          end) with (tool_fn api t).
  change (State (st_creds s) (st_ec2 s) (st_route53 s) (st_iam s) (st_next_id s)
                (st_log s ++ [EvInvoke t])) with (set_log s (st_log s ++ [EvInvoke t])).
  rewrite (surjective_pairing (tool_fn api t _)), tool_fn_state.
  pose proof (tool_fn_frame api t s (st_log s ++ [EvInvoke t])) as F.
  unfold outcome in *. rewrite F. simpl.
  rewrite tool_requests_log, <- app_assoc. reflexivity.
Qed.

Lemma run_tool_set_log api (t : tool_call) (s : state) (l : list event) :
  run_tool api t (set_log s l)
  = (State (st_creds s) (st_ec2 s) (st_route53 s) (st_iam s) (allocs t + st_next_id s)
           (l ++ EvInvoke t :: tool_requests t s)%list,
     outcome (tool_fn api t s)).
Proof. rewrite run_tool_eq, tool_fn_frame, tool_requests_log. reflexivity. Qed.

Ltac matched_branch :=
  match goal with |- exists r, outcome (tool_fn ?api ?t ?s) = inr r /\ _ =>
    let r := fresh "r" in let Hr := fresh "Hr" in
    destruct (tool_fn_returns api t s) as [r Hr]; exists r; split; [exact Hr|];
    match goal with |- context [run_tool ?a ?t' ?s1] =>
      change s1 with (set_log s (st_log s1)) end;
    rewrite run_tool_set_log, Hr; simpl; rewrite <- !app_assoc; reflexivity
  end.

Lemma agent_iteration_spec api llm (query : string) (s : state) :
  match llm query with
  | inl e => agent_iteration api llm query s
             = (set_log s (st_log s ++ banner query ++ [EvLLM query]), inl e)
  | inr content =>
      match dispatch query with
      | None => agent_iteration api llm query s
                = (set_log s (st_log s ++ banner query ++
                     [EvLLM query; EvPrint "Agent response:"; EvPrint content]), inr tt)
      | Some t => exists r, outcome (tool_fn api t s) = inr r /\
          agent_iteration api llm query s
          = (State (st_creds s) (st_ec2 s) (st_route53 s) (st_iam s) (allocs t + st_next_id s)
               (st_log s ++ banner query ++
                [EvLLM query; EvPrint "Agent response:"; EvPrint content;
                 EvPrint (announce t); EvInvoke t] ++ tool_requests t s ++
                [EvPrint ("Result: " +:+ r)]), inr tt)
      end
  end%list.
Proof.
  unfold agent_iteration, banner. run_pym.
  destruct (llm query) as [e|content]; simpl.
  - unfold set_log. rewrite <- !app_assoc. reflexivity.
  - unfold dispatch.
    destruct (py_contains "s3" (py_lower query) && py_contains "bucket" (py_lower query));
      [matched_branch|].
    destruct (py_contains "route 53" (py_lower query)
              || py_contains "hosted zone" (py_lower query)); [matched_branch|].
    destruct (py_contains "ec2" (py_lower query) && py_contains "10.0.1.112" query);
      [matched_branch|].
    destruct (py_contains "iam" (py_lower query)
              && py_contains "take-home-coding" (py_lower query)); [matched_branch|].
    unfold set_log. rewrite <- !app_assoc. reflexivity.
Qed.

Lemma llm_inputs_app (l1 l2 : list event) :
  llm_inputs (l1 ++ l2)%list = (llm_inputs l1 ++ llm_inputs l2)%list.
Proof. induction l1 as [|[] l1 IH]; simpl; rewrite ?IH; reflexivity. Qed.

Lemma spawns_app (l1 l2 : list event) :
  spawns (l1 ++ l2)%list = (spawns l1 ++ spawns l2)%list.
Proof. induction l1 as [|[] l1 IH]; simpl; rewrite ?IH; reflexivity. Qed.

Lemma clients_app (l1 l2 : list event) :
  clients (l1 ++ l2)%list = (clients l1 ++ clients l2)%list.
Proof. induction l1 as [|[] l1 IH]; simpl; rewrite ?IH; reflexivity. Qed.

Lemma new_events_app {A} (m : PyM A) (s : state) (l : list event) :
  st_log (fst (m s)) = (st_log s ++ l)%list -> new_events m s = l.
Proof. unfold new_events. intros ->. apply drop_app_length. Qed.

Lemma loop_step api llm (q : string) (rest : list string) (s : state) :
  exists s1 l,
    agent_loop api llm (q :: rest) s = agent_loop api llm rest s1 /\
    globals_kept s s1 /\
    st_next_id s1 = List.length (List.filter is_s3 (selected_tools llm [q])) + st_next_id s /\
    st_log s1 = (st_log s ++ l)%list /\
    invoked l = selected_tools llm [q] /\
    llm_inputs l = [q] /\ spawns l = [] /\
    clients l = map (Handle "s3" (st_creds s))
                    (seq (st_next_id s) (List.length (List.filter is_s3 (selected_tools llm [q])))).
Proof.
  pose proof (agent_iteration_spec api llm q s) as H.
  simpl agent_loop. unfold py_bind at 1, py_try. unfold selected_tools. simpl flat_map.
  destruct (llm q) as [e|content].
  - rewrite H. unfold py_print, emit. simpl.
    eexists _, _. split; [reflexivity|]. split; [repeat split|].
    split; [reflexivity|]. split; [rewrite <- app_assoc; reflexivity|].
    simpl. repeat split; reflexivity.
  - destruct (dispatch q) as [t|].
    + destruct H as (r & Hr & ->). simpl.
      eexists _, _. split; [reflexivity|]. split; [repeat split|].
      split; [destruct t; reflexivity|]. split; [reflexivity|].
      destruct t; simpl; repeat split; reflexivity.
    + rewrite H. simpl.
      eexists _, _. split; [reflexivity|]. split; [repeat split|].
      split; [reflexivity|]. split; [reflexivity|].
      simpl. repeat split; reflexivity.
Qed.

Lemma selected_tools_cons llm (q : string) (rest : list string) :
  selected_tools llm (q :: rest) = (selected_tools llm [q] ++ selected_tools llm rest)%list.
Proof. unfold selected_tools. simpl. rewrite app_nil_r. reflexivity. Qed.

Lemma loop_summary api llm (queries : list string) (s : state) :
  globals_kept s (fst (agent_loop api llm queries s)) /\
  st_next_id (fst (agent_loop api llm queries s))
    = List.length (List.filter is_s3 (selected_tools llm queries)) + st_next_id s /\
  exists l,
    st_log (fst (agent_loop api llm queries s)) = (st_log s ++ l)%list /\
    invoked l = selected_tools llm queries /\
    llm_inputs l = queries /\ spawns l = [] /\
    clients l = map (Handle "s3" (st_creds s))
                    (seq (st_next_id s) (List.length (List.filter is_s3 (selected_tools llm queries)))).
Proof.
  revert s. induction queries as [|q rest IH]; intros s.
  - simpl. split; [repeat split|]. split; [reflexivity|].
    exists []. rewrite app_nil_r. repeat split; reflexivity.
  - destruct (loop_step api llm q rest s)
      as (s1 & l1 & E & (G1 & G2 & G3 & G4) & N & L & Hi & Hq & Hs & Hc).
    destruct (IH s1) as ((G1' & G2' & G3' & G4') & N' & l2 & L' & Hi' & Hq' & Hs' & Hc').
    rewrite E, selected_tools_cons, List.filter_app, length_app.
    split; [unfold globals_kept; rewrite G1', G2', G3', G4'; repeat split; assumption|].
    split; [rewrite N', N; lia|].
    exists (l1 ++ l2)%list. rewrite L', L, app_assoc.
    split; [reflexivity|].
    rewrite invoked_app, llm_inputs_app, spawns_app, clients_app, Hi, Hi', Hq, Hq', Hs, Hs'.
    split; [reflexivity|]. split; [reflexivity|]. split; [reflexivity|].
    rewrite Hc, Hc', G1, N, seq_app, map_app.
    rewrite (Nat.add_comm (List.length _) (st_next_id s)). reflexivity.
Qed.

Lemma clients_ids (P : nat -> Prop) (l : list event) :
  Forall (fun h => P (h_id h)) (clients l) ->
  Forall (fun ev => match ev with EvClient h => P (h_id h) | _ => True end) l.
Proof.
  induction l as [|[] l IH]; simpl; intros H; try (constructor; [exact I|apply IH, H]).
  - constructor.
  - inversion H; subst. constructor; [assumption|apply IH; assumption].
Qed.

(** X1. Over any list of queries, the harness loop invokes exactly the
    tools the rule table selects for the queries the model answers, in
    query order: one per answered matching query, none for a query whose
    model call raises or that no rule matches. *)
Theorem loop_invokes_selected_tools api llm (queries : list string) (s : state) :
  invoked (new_events (agent_loop api llm queries) s) = selected_tools llm queries.
Proof.
  destruct (loop_summary api llm queries s) as (_ & _ & l & L & Hi & _).
  rewrite (new_events_app _ _ l L). exact Hi.
Qed.

(** X2. The harness loop sends each query to the model exactly once, in
    order, whatever the model or the AWS API do, and never spawns a
    process: the CLI tool is never run by the harness. *)
Theorem loop_asks_model_once_per_query api llm (queries : list string) (s : state) :
  llm_inputs (new_events (agent_loop api llm queries) s) = queries /\
  spawns (new_events (agent_loop api llm queries) s) = [].
Proof.
  destruct (loop_summary api llm queries s) as (_ & _ & l & L & _ & Hq & Hs & _).
  rewrite (new_events_app _ _ l L). split; assumption.
Qed.

(** X3. The harness loop never rebinds the module-level credentials or
    the ec2, route53 and iam clients; the only clients it builds are the S3
    tool's, one per S3 listing invoked, with consecutive fresh identities;
    and every object identity stays below the allocation counter. *)
Theorem loop_keeps_module_clients api llm (queries : list string) (s : state) :
  globals_kept s (fst (agent_loop api llm queries s)) /\
  clients (new_events (agent_loop api llm queries) s)
    = map (Handle "s3" (st_creds s))
          (seq (st_next_id s)
               (List.length (List.filter is_s3 (invoked (new_events (agent_loop api llm queries) s))))) /\
  (wf_state s -> wf_state (fst (agent_loop api llm queries s))).
Proof.
  destruct (loop_summary api llm queries s) as ((G1 & G2 & G3 & G4) & N & l & L & Hi & _ & _ & Hc).
  rewrite (new_events_app _ _ l L), Hi.
  split; [repeat split; assumption|]. split; [exact Hc|].
  intros (He & Hr & Hm & Hlog). unfold wf_state.
  rewrite G2, G3, G4, N, L.
  split; [lia|]. split; [lia|]. split; [lia|].
  apply Forall_app. split.
  - eapply Forall_impl; [exact Hlog|]. intros [] H; simpl; auto; lia.
  - refine (clients_ids (fun n => n < List.length (List.filter is_s3 (selected_tools llm queries))
                                      + st_next_id s) l _).
    rewrite Hc. apply List.Forall_forall. intros h Hh.
    apply in_map_iff in Hh as (i & <- & Hi'). apply in_seq in Hi'. simpl. lia.
Qed.

Lemma selected_tools_test_queries llm :
  selected_tools llm test_queries
  = flat_map (fun qt => match llm (fst qt) with inl _ => [] | inr _ => [snd qt] end)
      (zip test_queries [CallS3; CallRoute53; CallEC2 "10.0.1.112"; CallIAM "take-home-coding"]).
Proof.
  unfold selected_tools, test_queries. cbn [flat_map zip fst snd].
  assert (D1 : dispatch "List all S3 buckets in my AWS account" = Some CallS3)
    by (vm_compute; reflexivity).
  assert (D2 : dispatch "List all Route 53 hosted zones" = Some CallRoute53)
    by (vm_compute; reflexivity).
  assert (D3 : dispatch "Get the size of EC2 instance with IP 10.0.1.112"
               = Some (CallEC2 "10.0.1.112")) by (vm_compute; reflexivity).
  assert (D4 : dispatch "Get permissions for IAM user take-home-coding"
               = Some (CallIAM "take-home-coding")) by (vm_compute; reflexivity).
  rewrite D1, D2, D3, D4. reflexivity.
Qed.

(** X4. After an import that ends normally, running the script ends
    normally, prints "Testing Enhanced AWS Agent..." first, asks the model
    the four fixed queries in order, and invokes the S3 listing, the Route
    53 listing, the EC2 lookup of 10.0.1.112 and the IAM lookup of
    take-home-coding, each one exactly when the model answers its query. *)
Theorem script_main_run api llm client_error chat_error (dotenv environ : gmap string string)
  (env : gmap string string) (s : state) :
  import_module client_error chat_error dotenv environ = inr (env, s) ->
  returns (main api llm s) /\
  head (printed (new_events (main api llm) s)) = Some "Testing Enhanced AWS Agent..." /\
  llm_inputs (new_events (main api llm) s) = test_queries /\
  invoked (new_events (main api llm) s)
    = flat_map (fun qt => match llm (fst qt) with inl _ => [] | inr _ => [snd qt] end)
        (zip test_queries [CallS3; CallRoute53; CallEC2 "10.0.1.112";
                           CallIAM "take-home-coding"]).
Proof.
  intros _.
  set (s1 := set_log s (st_log s ++ [EvPrint "Testing Enhanced AWS Agent..."])%list).
  assert (E : main api llm s = test_aws_agent api llm s1) by reflexivity.
  destruct (loop_summary api llm test_queries s1) as (_ & _ & l & L & Hi & Hq & _).
  assert (Hn : new_events (main api llm) s = EvPrint "Testing Enhanced AWS Agent..." :: l).
  { apply new_events_app. rewrite E. unfold test_aws_agent. rewrite L.
    simpl. rewrite <- ?app_assoc. reflexivity. }
  rewrite Hn. split; [rewrite E; apply agent_loop_returns|].
  split; [reflexivity|]. split; [exact Hq|].
  simpl. rewrite Hi. apply selected_tools_test_queries.
Qed.

(** X5. For a query a rule matches and the model answers, the iteration
    prints the banner, "Agent response:" and the reply, then the branch's
    announcement line, invokes the tool, which makes exactly its own AWS
    requests, and prints "Result: " followed by the string the tool returns
    when called directly from the same state; the iteration ends normally. *)
Theorem matched_query_trace api llm (query content : string) (t : tool_call) (s : state) :
  llm query = inr content -> dispatch query = Some t ->
  exists r, outcome (tool_fn api t s) = inr r /\
    outcome (agent_iteration api llm query s) = inr tt /\
    new_events (agent_iteration api llm query) s
      = (banner query ++
         [EvLLM query; EvPrint "Agent response:"; EvPrint content;
          EvPrint (announce t); EvInvoke t] ++
         tool_requests t s ++ [EvPrint ("Result: " +:+ r)])%list /\
    printed (new_events (agent_iteration api llm query) s)
      = [nl +:+ rule50; "Query: " +:+ query; rule50; "Agent response:"; content;
         announce t; "Result: " +:+ r].
Proof.
  intros Hl Hd. pose proof (agent_iteration_spec api llm query s) as H.
  rewrite Hl, Hd in H. destruct H as (r & Hr & E).
  assert (N : new_events (agent_iteration api llm query) s
              = (banner query ++
                 [EvLLM query; EvPrint "Agent response:"; EvPrint content;
                  EvPrint (announce t); EvInvoke t] ++
                 tool_requests t s ++ [EvPrint ("Result: " +:+ r)])%list).
  { apply new_events_app. rewrite E. reflexivity. }
  exists r. split; [exact Hr|]. split; [rewrite E; reflexivity|].
  split; [exact N|]. rewrite N. destruct t; reflexivity.
Qed.

(** X6. Each AWS tool makes exactly one API request and spawns nothing:
    list_hosted_zones on the module's route53 client, describe_instances
    with a private-ip-address filter holding exactly the given IP on the
    module's ec2 client, list_attached_user_policies with the given user
    name on the module's iam client, and list_buckets on a new s3 client it
    builds first; the CLI tool makes no API request and spawns exactly one
    process. *)
Theorem tool_request_events api
  (subprocess_run : list string -> gmap string (option string) -> exn + completed)
  (environ : gmap string string) (s : state) (command instance_ip user_name : string) :
  new_events (list_route53_hosted_zones api) s
    = [EvApi (st_route53 s) "list_hosted_zones" []] /\
  new_events (get_ec2_instance_size api instance_ip) s
    = [EvApi (st_ec2 s) "describe_instances"
         [("Filters", PList [PDict [("Name", PStr "private-ip-address");
                                    ("Values", PList [PStr instance_ip])]])]] /\
  new_events (get_user_permissions api user_name) s
    = [EvApi (st_iam s) "list_attached_user_policies" [("UserName", PStr user_name)]] /\
  new_events (list_s3_buckets api) s
    = [EvClient (Handle "s3" (st_creds s) (st_next_id s));
       EvApi (Handle "s3" (st_creds s) (st_next_id s)) "list_buckets" []] /\
  new_events (aws_cli_command subprocess_run environ command) s
    = [EvSpawn ("aws" :: py_split command) (cli_env environ (st_creds s))].
Proof.
  split; [apply new_events_app; exact (f_equal st_log (tool_fn_state api CallRoute53 s))|].
  split; [apply new_events_app; exact (f_equal st_log (tool_fn_state api (CallEC2 instance_ip) s))|].
  split; [apply new_events_app; exact (f_equal st_log (tool_fn_state api (CallIAM user_name) s))|].
  split; [apply new_events_app; exact (f_equal st_log (tool_fn_state api CallS3 s))|].
  apply cli_command_spawn_event.
Qed.

(** X7. When a response is a dict without the key the tool reads
    (HostedZones, Reservations, AttachedPolicies, Buckets), the tool returns
    its error prefix followed by the key in quotes, the text of the
    [KeyError]. *)
Theorem missing_response_key api (s : state) (instance_ip user_name : string) :
  (forall d, api (st_route53 s) "list_hosted_zones" [] = inr (PDict d) ->
     dict_get d "HostedZones" = None ->
     outcome (list_route53_hosted_zones api s)
     = inr "Error listing Route 53 hosted zones: 'HostedZones'") /\
  (forall d, api (st_ec2 s) "describe_instances" (ec2_filters instance_ip) = inr (PDict d) ->
     dict_get d "Reservations" = None ->
     outcome (get_ec2_instance_size api instance_ip s)
     = inr "Error getting EC2 instance size: 'Reservations'") /\
  (forall d, api (st_iam s) "list_attached_user_policies" [("UserName", PStr user_name)]
             = inr (PDict d) ->
     dict_get d "AttachedPolicies" = None ->
     outcome (get_user_permissions api user_name s)
     = inr "Error getting user permissions: 'AttachedPolicies'") /\
  (forall d, api (Handle "s3" (st_creds s) (st_next_id s)) "list_buckets" [] = inr (PDict d) ->
     dict_get d "Buckets" = None ->
     outcome (list_s3_buckets api s) = inr "Error listing S3 buckets: 'Buckets'").
Proof.
  repeat split; intros d Hapi Hd; unfold outcome;
    [unfold list_route53_hosted_zones | unfold get_ec2_instance_size
    | unfold get_user_permissions | unfold list_s3_buckets];
    run_pym; rewrite Hapi; simpl; rewrite Hd; reflexivity.
Qed.

(** X8. An empty list of zones, policies or buckets gives the tool's
    prefix followed by "[]", not an error. *)
Theorem empty_listings api (s : state) (user_name : string) :
  (forall response, api (st_route53 s) "list_hosted_zones" [] = inr response ->
     getitem response (KStr "HostedZones") = inr (PList []) ->
     outcome (list_route53_hosted_zones api s) = inr "Route 53 Hosted Zones: []") /\
  (forall response, api (st_iam s) "list_attached_user_policies" [("UserName", PStr user_name)]
                    = inr response ->
     getitem response (KStr "AttachedPolicies") = inr (PList []) ->
     outcome (get_user_permissions api user_name s)
     = inr ("IAM user '" +:+ user_name +:+ "' has these policies: []")) /\
  (forall response, api (Handle "s3" (st_creds s) (st_next_id s)) "list_buckets" [] = inr response ->
     getitem response (KStr "Buckets") = inr (PList []) ->
     outcome (list_s3_buckets api s) = inr "S3 Buckets: []").
Proof.
  repeat split; intros response Hapi Hr; unfold outcome;
    [unfold list_route53_hosted_zones | unfold get_user_permissions | unfold list_s3_buckets];
    run_pym; rewrite Hapi; simpl; rewrite Hr; simpl; rewrite ?sapp_assoc; reflexivity.
Qed.

Lemma comprehension_first_failure (f : pyval -> exn + pyval) (zs1 : list pyval) (names : list string)
  (z : pyval) (zs2 : list pyval) (e : exn) :
  Forall2 (fun z n => f z = inr (PStr n)) zs1 names -> f z = inl e ->
  comprehension f (zs1 ++ z :: zs2) = inl e.
Proof.
  intros H Hz. induction H as [|z1 n zs1 names H1 _ IH]; simpl.
  - rewrite Hz. reflexivity.
  - rewrite H1, IH. reflexivity.
Qed.

(** X9. When an entry of the listing has no name field (Name,
    PolicyName), the listing tool returns only the [KeyError] message
    "... 'Name'" or "... 'PolicyName'", even when the entries before it are
    well formed: no partial list is returned. *)
Theorem entry_without_name api (s : state) (user_name : string) :
  (forall response zs1 names d zs2,
     api (st_route53 s) "list_hosted_zones" [] = inr response ->
     getitem response (KStr "HostedZones") = inr (PList (zs1 ++ PDict d :: zs2)) ->
     Forall2 (fun z n => getitem z (KStr "Name") = inr (PStr n)) zs1 names ->
     dict_get d "Name" = None ->
     outcome (list_route53_hosted_zones api s)
     = inr "Error listing Route 53 hosted zones: 'Name'") /\
  (forall response ps1 names d ps2,
     api (st_iam s) "list_attached_user_policies" [("UserName", PStr user_name)] = inr response ->
     getitem response (KStr "AttachedPolicies") = inr (PList (ps1 ++ PDict d :: ps2)) ->
     Forall2 (fun p n => getitem p (KStr "PolicyName") = inr (PStr n)) ps1 names ->
     dict_get d "PolicyName" = None ->
     outcome (get_user_permissions api user_name s)
     = inr "Error getting user permissions: 'PolicyName'") /\
  (forall response bs1 names d bs2,
     api (Handle "s3" (st_creds s) (st_next_id s)) "list_buckets" [] = inr response ->
     getitem response (KStr "Buckets") = inr (PList (bs1 ++ PDict d :: bs2)) ->
     Forall2 (fun b n => getitem b (KStr "Name") = inr (PStr n)) bs1 names ->
     dict_get d "Name" = None ->
     outcome (list_s3_buckets api s) = inr "Error listing S3 buckets: 'Name'").
Proof.
  repeat split; intros response xs1 names d xs2 Hapi Hr Hn Hd; unfold outcome;
    [unfold list_route53_hosted_zones | unfold get_user_permissions | unfold list_s3_buckets];
    run_pym; rewrite Hapi; simpl; rewrite Hr; simpl;
    match goal with Hd : dict_get d ?k = None |- _ =>
      rewrite (comprehension_first_failure (fun z => getitem z (KStr k)) xs1 names (PDict d) xs2
                 (PyExc "KeyError" (repr_str k)) Hn) by (simpl; rewrite Hd; reflexivity)
    end; reflexivity.
Qed.

(** X10. When the first reservation has no Instances field, or its first
    instance has no InstanceType field, the EC2 tool returns its error
    prefix followed by that key in quotes. *)
Theorem ec2_missing_nested_key api (s : state) (instance_ip : string) :
  (forall response d rs,
     api (st_ec2 s) "describe_instances" (ec2_filters instance_ip) = inr response ->
     getitem response (KStr "Reservations") = inr (PList (PDict d :: rs)) ->
     dict_get d "Instances" = None ->
     outcome (get_ec2_instance_size api instance_ip s)
     = inr "Error getting EC2 instance size: 'Instances'") /\
  (forall response r rs d is,
     api (st_ec2 s) "describe_instances" (ec2_filters instance_ip) = inr response ->
     getitem response (KStr "Reservations") = inr (PList (r :: rs)) ->
     getitem r (KStr "Instances") = inr (PList (PDict d :: is)) ->
     dict_get d "InstanceType" = None ->
     outcome (get_ec2_instance_size api instance_ip s)
     = inr "Error getting EC2 instance size: 'InstanceType'").
Proof.
  split.
  - intros response d rs Hapi Hr Hd. unfold get_ec2_instance_size, outcome. run_pym.
    rewrite Hapi. simpl. rewrite Hr. simpl. rewrite Hd. reflexivity.
  - intros response r rs d is Hapi Hr Hi Hd. unfold get_ec2_instance_size, outcome. run_pym.
    rewrite Hapi. simpl. rewrite Hr. simpl. rewrite Hi. simpl. rewrite Hd. reflexivity.
Qed.

(** X11. For every command, a CLI process that exits with a nonzero code
    (including a negative one) makes the tool return "Error: " followed by
    the captured standard error; the standard output is discarded. *)
Theorem cli_nonzero_exit
  (subprocess_run : list string -> gmap string (option string) -> exn + completed)
  (environ : gmap string string) (s : state) (command : string) (r : completed) :
  subprocess_run ("aws" :: py_split command) (cli_env environ (st_creds s)) = inr r ->
  returncode r <> 0%Z ->
  outcome (aws_cli_command subprocess_run environ command s) = inr ("Error: " +:+ stderr r).
Proof.
  intros Hr Hc. unfold aws_cli_command, outcome. run_pym. rewrite Hr. simpl.
  apply Z.eqb_neq in Hc. rewrite Hc. reflexivity.
Qed.

(** X12. When one of the three credentials was unset at import, the CLI
    environment holds [None] for its variable; with CPython's
    [subprocess.run], which refuses [None] values, every CLI command then
    returns "Error executing AWS command: " and the [TypeError] text. *)
Theorem cli_unset_credential
  (subprocess_run : list string -> gmap string (option string) -> exn + completed)
  (environ : gmap string string) (s : state) (command : string) :
  rejects_none subprocess_run ->
  cred_access (st_creds s) = None \/ cred_secret (st_creds s) = None \/
  cred_region (st_creds s) = None ->
  outcome (aws_cli_command subprocess_run environ command s)
  = inr "Error executing AWS command: expected str, bytes or os.PathLike object, not NoneType".
Proof.
  intros Hrej Hnone.
  destruct (cli_env_lookup environ (st_creds s)) as (H1 & H2 & H3 & _).
  assert (E : subprocess_run ("aws" :: py_split command) (cli_env environ (st_creds s))
              = inl none_value_error).
  { destruct Hnone as [Hn|[Hn|Hn]]; rewrite Hn in *; eapply Hrej; eassumption. }
  unfold aws_cli_command, outcome. run_pym. rewrite E. reflexivity.
Qed.

Lemma load_dotenv_lookup (dotenv environ : gmap string string) (k : string) :
  load_dotenv dotenv environ !! k = first_set (environ !! k) (dotenv !! k).
Proof.
  unfold load_dotenv. rewrite lookup_union.
  destruct (environ !! k), (dotenv !! k); reflexivity.
Qed.

Lemma import_module_run client_error chat_error (dotenv environ : gmap string string) :
  import_module client_error chat_error dotenv environ
  = let env := load_dotenv dotenv environ in
    let c := read_creds env in
    match client_error env "ec2" c with
    | Some e => inl e
    | None =>
      match client_error env "route53" c with
      | Some e => inl e
      | None =>
        match client_error env "iam" c with
        | Some e => inl e
        | None =>
          match chat_error env (env !! "OPENAI_API_KEY") with
          | Some e => inl e
          | None => inr (env, post_import_state c)
          end
        end
      end
    end.
Proof.
  unfold import_module, module_init, boto3_client_checked, boto3_client, py_bind, py_ret.
  simpl. destruct (client_error _ "ec2" _); [reflexivity|].
  simpl. destruct (client_error _ "route53" _); [reflexivity|].
  simpl. destruct (client_error _ "iam" _); reflexivity.
Qed.

Lemma import_module_success client_error chat_error (dotenv environ env : gmap string string)
  (s : state) :
  import_module client_error chat_error dotenv environ = inr (env, s) ->
  env = load_dotenv dotenv environ /\ s = post_import_state (read_creds env).
Proof.
  rewrite import_module_run. cbv zeta.
  repeat match goal with
         | |- context [match ?x with Some _ => _ | None => _ end] => destruct x
         end; intros H; try discriminate.
  injection H as <- <-. split; reflexivity.
Qed.

(** X13. Importing the module reads AWS_ACCESS_KEY, AWS_SECRET_KEY and
    REGION_NAME, each from the process environment when set there and from
    the .env file otherwise; with those credentials it builds the ec2,
    route53 and iam clients in that order, then the chat model, and ends
    with the exception of the first of these four steps that raises. When
    none raises, the module holds exactly three clients, with those
    credentials and distinct identities. *)
Theorem import_builds_module_clients client_error chat_error
  (dotenv environ : gmap string string) :
  let env := load_dotenv dotenv environ in
  let c := Creds (first_set (environ !! "AWS_ACCESS_KEY") (dotenv !! "AWS_ACCESS_KEY"))
                 (first_set (environ !! "AWS_SECRET_KEY") (dotenv !! "AWS_SECRET_KEY"))
                 (first_set (environ !! "REGION_NAME") (dotenv !! "REGION_NAME")) in
  import_module client_error chat_error dotenv environ
  = match client_error env "ec2" c with
    | Some e => inl e
    | None =>
      match client_error env "route53" c with
      | Some e => inl e
      | None =>
        match client_error env "iam" c with
        | Some e => inl e
        | None =>
          match chat_error env (env !! "OPENAI_API_KEY") with
          | Some e => inl e
          | None =>
              inr (env, State c (Handle "ec2" c 0) (Handle "route53" c 1) (Handle "iam" c 2) 3
                              [EvClient (Handle "ec2" c 0); EvClient (Handle "route53" c 1);
                               EvClient (Handle "iam" c 2)])
          end
        end
      end
    end /\
  wf_state (State c (Handle "ec2" c 0) (Handle "route53" c 1) (Handle "iam" c 2) 3
                  [EvClient (Handle "ec2" c 0); EvClient (Handle "route53" c 1);
                   EvClient (Handle "iam" c 2)]).
Proof.
  intros env c.
  assert (Hc : read_creds env = c).
  { unfold read_creds, env, c. rewrite !load_dotenv_lookup. reflexivity. }
  split.
  - rewrite import_module_run. cbv zeta. fold env. rewrite Hc. reflexivity.
  - unfold wf_state. simpl.
    split; [lia|]. split; [lia|]. split; [lia|]. repeat constructor; simpl; lia.
Qed.

(** X14. After an import that ends normally, the process the CLI tool
    spawns gets AWS_ACCESS_KEY_ID, AWS_SECRET_ACCESS_KEY and
    AWS_DEFAULT_REGION set to the values read from AWS_ACCESS_KEY,
    AWS_SECRET_KEY and REGION_NAME (process environment first, then .env),
    overriding any value of its own, and inherits every other variable of
    the process environment and of the .env file. *)
Theorem startup_credentials_reach_cli client_error chat_error
  (dotenv environ env : gmap string string) (s : state)
  (subprocess_run : list string -> gmap string (option string) -> exn + completed)
  (command : string) :
  import_module client_error chat_error dotenv environ = inr (env, s) ->
  exists envp,
    new_events (aws_cli_command subprocess_run env command) s
      = [EvSpawn ("aws" :: py_split command) envp] /\
    envp !! "AWS_ACCESS_KEY_ID"
      = Some (first_set (environ !! "AWS_ACCESS_KEY") (dotenv !! "AWS_ACCESS_KEY")) /\
    envp !! "AWS_SECRET_ACCESS_KEY"
      = Some (first_set (environ !! "AWS_SECRET_KEY") (dotenv !! "AWS_SECRET_KEY")) /\
    envp !! "AWS_DEFAULT_REGION"
      = Some (first_set (environ !! "REGION_NAME") (dotenv !! "REGION_NAME")) /\
    (forall k, k <> "AWS_ACCESS_KEY_ID" -> k <> "AWS_SECRET_ACCESS_KEY" ->
               k <> "AWS_DEFAULT_REGION" ->
               envp !! k = Some <$> first_set (environ !! k) (dotenv !! k)).
Proof.
  intros H. destruct (import_module_success _ _ _ _ _ _ H) as [-> ->].
  exists (cli_env (load_dotenv dotenv environ)
                  (read_creds (load_dotenv dotenv environ))).
  destruct (cli_env_lookup (load_dotenv dotenv environ)
                           (read_creds (load_dotenv dotenv environ)))
    as (H1 & H2 & H3 & H4).
  split; [apply cli_command_spawn_event|].
  rewrite H1, H2, H3.
  split; [unfold read_creds; simpl; rewrite !load_dotenv_lookup; reflexivity|].
  split; [unfold read_creds; simpl; rewrite !load_dotenv_lookup; reflexivity|].
  split; [unfold read_creds; simpl; rewrite !load_dotenv_lookup; reflexivity|].
  intros k Ka Kb Kc. rewrite H4 by assumption. simpl. rewrite load_dotenv_lookup. reflexivity.
Qed.

Lemma split_go_word (w s cur : string) :
  all_chars (fun c => negb (py_isspace c)) w = true ->
  split_go (w +:+ s) cur = split_go s (cur +:+ w).
Proof.
  revert cur. induction w as [|c w IH]; intros cur Hw; simpl.
  - rewrite sapp_empty_r. reflexivity.
  - apply andb_prop in Hw as [Hc Hw]. apply negb_true_iff in Hc. rewrite Hc.
    rewrite IH by exact Hw. rewrite sapp_assoc. reflexivity.
Qed.

Lemma split_go_blank_prefix (sp s : string) :
  all_chars py_isspace sp = true -> split_go (sp +:+ s) EmptyString = split_go s EmptyString.
Proof.
  induction sp as [|c sp IH]; simpl; [reflexivity|].
  intros H. apply andb_prop in H as [Hc Hs]. rewrite Hc. simpl. apply IH, Hs.
Qed.

Lemma split_go_sep (sp s cur : string) :
  all_chars py_isspace sp = true -> sp <> EmptyString -> cur <> EmptyString ->
  split_go (sp +:+ s) cur = cur :: split_go s EmptyString.
Proof.
  destruct sp as [|c sp]; [congruence|]. simpl. intros H _ Hcur.
  apply andb_prop in H as [Hc Hs]. rewrite Hc.
  apply String.eqb_neq in Hcur. rewrite Hcur. f_equal. apply split_go_blank_prefix, Hs.
Qed.

Lemma split_go_trailing (post cur : string) :
  all_chars py_isspace post = true -> cur <> EmptyString -> split_go post cur = [cur].
Proof.
  intros H Hcur. pose proof Hcur as Hcur'. apply String.eqb_neq in Hcur.
  destruct post as [|c post]; simpl.
  - rewrite Hcur. reflexivity.
  - simpl in H. apply andb_prop in H as [Hc Hs]. rewrite Hc, Hcur.
    f_equal. apply split_go_blank, Hs.
Qed.

Lemma split_go_join (sep post w : string) (ws : list string) :
  all_chars py_isspace post = true -> sep <> EmptyString -> all_chars py_isspace sep = true ->
  Forall (fun w => w <> EmptyString /\ all_chars (fun c => negb (py_isspace c)) w = true)
         (w :: ws) ->
  split_go (join sep (w :: ws) +:+ post) EmptyString = w :: ws.
Proof.
  intros Hpost Hsep Hsp. revert w. induction ws as [|w2 ws IH]; intros w Hws;
    inversion Hws as [|? ? [Hw Hwc] Hrest]; subst.
  - change (join sep [w]) with w. rewrite split_go_word by exact Hwc.
    apply split_go_trailing; assumption.
  - change (join sep (w :: w2 :: ws)) with (w +:+ sep +:+ join sep (w2 :: ws)).
    rewrite !sapp_assoc, split_go_word by exact Hwc. simpl.
    rewrite split_go_sep by assumption. f_equal. apply IH, Hrest.
Qed.

(** X15. Words without whitespace, joined by any non-empty whitespace
    separator and surrounded by any whitespace, reach the aws binary as
    exactly those words, in order. *)
Theorem cli_command_word_round_trip
  (subprocess_run : list string -> gmap string (option string) -> exn + completed)
  (environ : gmap string string) (s : state) (pre sep post : string) (ws : list string) :
  all_chars py_isspace pre = true -> all_chars py_isspace post = true ->
  sep <> EmptyString -> all_chars py_isspace sep = true ->
  Forall (fun w => w <> EmptyString /\ all_chars (fun c => negb (py_isspace c)) w = true) ws ->
  py_split (pre +:+ join sep ws +:+ post) = ws /\
  new_events (aws_cli_command subprocess_run environ (pre +:+ join sep ws +:+ post)) s
    = [EvSpawn ("aws" :: ws) (cli_env environ (st_creds s))].
Proof.
  intros Hpre Hpost Hsep Hsp Hws.
  assert (E : py_split (pre +:+ join sep ws +:+ post) = ws).
  { unfold py_split. rewrite split_go_blank_prefix by exact Hpre.
    destruct ws as [|w ws].
    - apply split_go_blank, Hpost.
    - apply split_go_join; assumption. }
  split; [exact E|]. rewrite cli_command_spawn_event, E. reflexivity.
Qed.

Lemma py_lower_char_idem (c : ascii) : py_lower_char (py_lower_char c) = py_lower_char c.
Proof. destruct c as [[] [] [] [] [] [] [] []]; vm_compute; reflexivity. Qed.

Lemma py_lower_idem (s : string) : py_lower (py_lower s) = py_lower s.
Proof. induction s as [|c s IH]; simpl; [reflexivity|]. now rewrite py_lower_char_idem, IH. Qed.


Lemma py_lower_char_ip (c x : ascii) : ip_char x = true -> py_lower_char c = x -> c = x.
Proof.
  intros Hx Hc. subst x.
  destruct c as [[] [] [] [] [] [] [] []]; vm_compute in Hx |- *; congruence.
Qed.

Lemma py_lower_ip (n' n : string) :
  all_chars ip_char n = true -> py_lower n' = n -> n' = n.
Proof.
  revert n'. induction n as [|x n IH]; intros n' Hn Hl; destruct n' as [|c n']; simpl in *;
    try discriminate; [reflexivity|].
  apply andb_prop in Hn as [Hx Hn]. injection Hl as Hc Hl.
  rewrite (py_lower_char_ip c x Hx Hc), (IH n' Hn Hl). reflexivity.
Qed.

Lemma py_lower_app_inv (q a b : string) :
  py_lower q = a +:+ b -> exists a' b', q = a' +:+ b' /\ py_lower a' = a /\ py_lower b' = b.
Proof.
  revert q. induction a as [|x a IH]; intros q H.
  - exists EmptyString, q. simpl. split; [reflexivity|]. split; [reflexivity|exact H].
  - destruct q as [|c q]; simpl in H; [discriminate|]. injection H as Hx H.
    destruct (IH q H) as (a' & b' & -> & Ha & Hb).
    exists (String c a'), b'. simpl. rewrite Hx, Ha. split; [reflexivity|]. split; [reflexivity|exact Hb].
Qed.

Lemma py_contains_ip_lower (n q : string) :
  all_chars ip_char n = true -> py_lower n = n -> py_contains n (py_lower q) = py_contains n q.
Proof.
  intros Hn Hln.
  apply Bool.eq_true_iff_eq. split.
  - rewrite !py_contains_iff. intros (a & b & H).
    destruct (py_lower_app_inv q a (n +:+ b) H) as (a' & r & -> & _ & Hr).
    destruct (py_lower_app_inv r n b Hr) as (n' & b' & -> & Hn' & _).
    rewrite (py_lower_ip n' n Hn Hn'). exists a', b'. reflexivity.
  - apply py_contains_lower, Hln.
Qed.

Lemma dispatch_lower (query : string) : dispatch (py_lower query) = dispatch query.
Proof.
  unfold dispatch. rewrite py_lower_idem.
  rewrite (py_contains_ip_lower "10.0.1.112" query) by reflexivity. reflexivity.
Qed.

(** X16. The rule table ignores letter case, including the EC2 rule's
    test of the raw query for "10.0.1.112": two queries with the same
    lower-case form select the same tool. *)
Theorem dispatch_ignores_case (q1 q2 : string) :
  py_lower q1 = py_lower q2 -> dispatch q1 = dispatch q2.
Proof. intros H. rewrite <- (dispatch_lower q1), <- (dispatch_lower q2), H. reflexivity. Qed.

(* ------------------------------------------------------------------ *)
(** ** Witnesses of the further properties *)

Lemma strict_run_rejects_none : rejects_none strict_run.
Proof.
  intros argv env k H. unfold strict_run.
  rewrite bool_decide_false; [reflexivity|].
  intros HF. specialize (HF k None H). inversion HF. discriminate.
Qed.

Lemma matched_query_trace_witness :
  exists r, outcome (tool_fn demo_api CallS3 demo_state) = inr r /\
    outcome (agent_iteration demo_api demo_llm "List all S3 buckets in my AWS account"
               demo_state) = inr tt /\
    new_events (agent_iteration demo_api demo_llm "List all S3 buckets in my AWS account")
               demo_state
      = (banner "List all S3 buckets in my AWS account" ++
         [EvLLM "List all S3 buckets in my AWS account"; EvPrint "Agent response:";
          EvPrint "I can help with that."; EvPrint (announce CallS3); EvInvoke CallS3] ++
         tool_requests CallS3 demo_state ++ [EvPrint ("Result: " +:+ r)])%list /\
    printed (new_events (agent_iteration demo_api demo_llm
                           "List all S3 buckets in my AWS account") demo_state)
      = [nl +:+ rule50; "Query: " +:+ "List all S3 buckets in my AWS account"; rule50;
         "Agent response:"; "I can help with that."; announce CallS3; "Result: " +:+ r].
Proof.
  apply (matched_query_trace demo_api demo_llm "List all S3 buckets in my AWS account"
           "I can help with that." CallS3 demo_state); vm_compute; reflexivity.
Defined.

Lemma loop_keeps_module_clients_witness :
  wf_state demo_state /\ wf_state (fst (test_aws_agent demo_api demo_llm demo_state)).
Proof.
  assert (Hwf : wf_state demo_state).
  { unfold wf_state. vm_compute. repeat split; repeat constructor; lia. }
  split; [exact Hwf|].
  apply (loop_keeps_module_clients demo_api demo_llm test_queries demo_state). exact Hwf.
Defined.

Lemma missing_response_key_witness :
  outcome (list_route53_hosted_zones keyless_api demo_state)
    = inr "Error listing Route 53 hosted zones: 'HostedZones'" /\
  outcome (get_ec2_instance_size keyless_api "10.0.1.112" demo_state)
    = inr "Error getting EC2 instance size: 'Reservations'" /\
  outcome (get_user_permissions keyless_api "take-home-coding" demo_state)
    = inr "Error getting user permissions: 'AttachedPolicies'" /\
  outcome (list_s3_buckets keyless_api demo_state) = inr "Error listing S3 buckets: 'Buckets'".
Proof.
  destruct (missing_response_key keyless_api demo_state "10.0.1.112" "take-home-coding")
    as (H1 & H2 & H3 & H4).
  split; [apply (H1 []); reflexivity|].
  split; [apply (H2 []); reflexivity|].
  split; [apply (H3 []); reflexivity|].
  apply (H4 []); reflexivity.
Defined.

Lemma empty_listings_witness :
  outcome (list_route53_hosted_zones empty_account_api demo_state)
    = inr "Route 53 Hosted Zones: []" /\
  outcome (get_user_permissions empty_account_api "take-home-coding" demo_state)
    = inr ("IAM user '" +:+ "take-home-coding" +:+ "' has these policies: []") /\
  outcome (list_s3_buckets empty_account_api demo_state) = inr "S3 Buckets: []".
Proof.
  destruct (empty_listings empty_account_api demo_state "take-home-coding") as (H1 & H2 & H3).
  split; [apply (H1 (PDict [("HostedZones", PList [])])); reflexivity|].
  split; [apply (H2 (PDict [("AttachedPolicies", PList [])])); reflexivity|].
  apply (H3 (PDict [("Buckets", PList [])])); reflexivity.
Defined.

Lemma entry_without_name_witness :
  outcome (list_route53_hosted_zones partial_api demo_state)
    = inr "Error listing Route 53 hosted zones: 'Name'" /\
  outcome (get_user_permissions partial_api "take-home-coding" demo_state)
    = inr "Error getting user permissions: 'PolicyName'" /\
  outcome (list_s3_buckets partial_api demo_state) = inr "Error listing S3 buckets: 'Name'".
Proof.
  destruct (entry_without_name partial_api demo_state "take-home-coding") as (H1 & H2 & H3).
  split.
  { apply (H1 (PDict [("HostedZones", PList [PDict [("Name", PStr "example.com.")];
                                              PDict [("Id", PStr "/hostedzone/Z2")]])])
              [PDict [("Name", PStr "example.com.")]] ["example.com."]
              [("Id", PStr "/hostedzone/Z2")] []);
      [reflexivity | reflexivity | repeat constructor | reflexivity]. }
  split.
  { apply (H2 (PDict [("AttachedPolicies",
                       PList [PDict [("PolicyArn", PStr "arn:aws:iam::aws:policy/ReadOnlyAccess")]])])
              [] [] [("PolicyArn", PStr "arn:aws:iam::aws:policy/ReadOnlyAccess")] []);
      [reflexivity | reflexivity | constructor | reflexivity]. }
  apply (H3 (PDict [("Buckets", PList [PDict [("Name", PStr "assets-prod")];
                                       PDict [("CreationDate", PStr "2024-01-01")]])])
            [PDict [("Name", PStr "assets-prod")]] ["assets-prod"]
            [("CreationDate", PStr "2024-01-01")] []);
    [reflexivity | reflexivity | repeat constructor | reflexivity].
Defined.

Lemma ec2_missing_nested_key_witness :
  outcome (get_ec2_instance_size partial_api "10.0.0.1" demo_state)
    = inr "Error getting EC2 instance size: 'Instances'" /\
  outcome (get_ec2_instance_size partial_api "10.0.1.112" demo_state)
    = inr "Error getting EC2 instance size: 'InstanceType'".
Proof.
  split.
  - apply (proj1 (ec2_missing_nested_key partial_api demo_state "10.0.0.1")
             (PDict [("Reservations", PList [PDict [("ReservationId", PStr "r-1")]])])
             [("ReservationId", PStr "r-1")] []); reflexivity.
  - apply (proj2 (ec2_missing_nested_key partial_api demo_state "10.0.1.112")
             (PDict [("Reservations",
                      PList [PDict [("Instances", PList [PDict [("InstanceId", PStr "i-1")]])]])])
             (PDict [("Instances", PList [PDict [("InstanceId", PStr "i-1")]])]) []
             [("InstanceId", PStr "i-1")] []); reflexivity.
Defined.

Lemma cli_nonzero_exit_witness :
  outcome (aws_cli_command failing_run ∅ "s3 ls" demo_state)
    = inr ("Error: " +:+ "aws: error: argument operation: Invalid choice").
Proof.
  apply (cli_nonzero_exit failing_run ∅ demo_state "s3 ls"
           (Completed 252 "" "aws: error: argument operation: Invalid choice"));
    [reflexivity | discriminate].
Defined.

Lemma cli_unset_credential_witness :
  import_module demo_client_error demo_chat_error demo_dotenv demo_environ
    = inr (load_dotenv demo_dotenv demo_environ,
           post_import_state (read_creds (load_dotenv demo_dotenv demo_environ))) /\
  outcome (aws_cli_command strict_run (load_dotenv demo_dotenv demo_environ)
             "ec2 describe-regions"
             (post_import_state (read_creds (load_dotenv demo_dotenv demo_environ))))
  = inr "Error executing AWS command: expected str, bytes or os.PathLike object, not NoneType".
Proof.
  split; [vm_compute; reflexivity|].
  apply cli_unset_credential; [exact strict_run_rejects_none|].
  right. right. vm_compute. reflexivity.
Defined.

Lemma script_main_run_witness :
  returns (main demo_api demo_llm
                (post_import_state (read_creds (load_dotenv demo_dotenv demo_environ)))).
Proof.
  destruct (script_main_run demo_api demo_llm demo_client_error demo_chat_error
              demo_dotenv demo_environ (load_dotenv demo_dotenv demo_environ)
              (post_import_state (read_creds (load_dotenv demo_dotenv demo_environ))))
    as (H & _); [vm_compute; reflexivity | exact H].
Defined.

Lemma startup_credentials_reach_cli_witness :
  exists envp,
    new_events (aws_cli_command ok_run (load_dotenv demo_dotenv demo_environ) "s3 ls")
               (post_import_state (read_creds (load_dotenv demo_dotenv demo_environ)))
      = [EvSpawn ["aws"; "s3"; "ls"] envp] /\
    envp !! "AWS_ACCESS_KEY_ID" = Some (Some "AKIASHELL") /\
    envp !! "AWS_SECRET_ACCESS_KEY" = Some (Some "dotenv-secret") /\
    envp !! "AWS_DEFAULT_REGION" = Some None.
Proof.
  destruct (startup_credentials_reach_cli demo_client_error demo_chat_error
              demo_dotenv demo_environ (load_dotenv demo_dotenv demo_environ)
              (post_import_state (read_creds (load_dotenv demo_dotenv demo_environ)))
              ok_run "s3 ls")
    as (envp & H1 & H2 & H3 & H4 & _); [vm_compute; reflexivity|].
  exists envp. split; [exact H1|]. split; [exact H2|]. split; [exact H3|exact H4].
Defined.

Lemma cli_command_word_round_trip_witness :
  py_split (" " +:+ join "  " ["s3"; "ls"; "s3://assets-prod"] +:+ "	")
    = ["s3"; "ls"; "s3://assets-prod"] /\
  new_events (aws_cli_command ok_run ∅ (" " +:+ join "  " ["s3"; "ls"; "s3://assets-prod"] +:+ "	"))
             demo_state
    = [EvSpawn ["aws"; "s3"; "ls"; "s3://assets-prod"] (cli_env ∅ (st_creds demo_state))].
Proof.
  apply cli_command_word_round_trip; [reflexivity | reflexivity | discriminate | reflexivity |].
  repeat constructor; discriminate.
Defined.

Lemma dispatch_ignores_case_witness :
  dispatch "LIST ALL S3 BUCKETS IN MY AWS ACCOUNT"
  = dispatch "list all s3 buckets in my aws account".
Proof. apply dispatch_ignores_case. vm_compute. reflexivity. Defined.
